(** * SchoolSync: storage gateway, access policy and workflows

    A shallow embedding of the server of the school management system
    (server/storage.ts, server/routes.ts, the shared schema) and of the
    attendance statistics card of the client, together with the properties
    of the data model and of the access rules that are stated about them. *)

From Stdlib Require Import ZArith List Bool Lia.
From Stdlib Require Import Floats.PrimFloat Numbers.Cyclic.Int63.Uint63.
From stdpp Require Import gmap strings.

Open Scope Z_scope.

(** ** Shared schema (shared/schema.ts) *)

Module Schema.

Inductive Role := admin | teacher | student.
Inductive PromotionStatus := pending | promoted | retained.
Inductive AttendanceStatus := present | absent | late.

Definition Role_eqb (a b : Role) : bool :=
  match a, b with
  | admin, admin | teacher, teacher | student, student => true
  | _, _ => false
  end.

(** A JavaScript number used as an identifier: an integer, or the NaN that
    [parseInt] gives on a string without leading digits. *)
Inductive number := NaN | Int (z : Z).

(** A JavaScript [Date]: a time value in milliseconds, or Invalid Date. *)
Inductive Date := InvalidDate | Time (ms : Z).

(** [a !== b] on numbers: NaN differs from everything, itself included. *)
Definition number_neqb (a b : number) : bool :=
  match a, b with
  | Int x, Int y => negb (x =? y)
  | _, _ => true
  end.

(** Rows of [users]. *)
Module User.
Record t := {
  id : Z;
  username : string;
  password : string;
  role : Role;
  fullName : string;
  email : string;
  profilePicture : option string;
  currentClassId : option Z;
  academicYear : option Z
}.
End User.

(** Rows of [student_academics]; [promotionStatus] is nullable with default
    "pending". *)
Module StudentAcademics.
Record t := {
  id : Z;
  studentId : Z;
  classLevelId : Z;
  academicYear : Z;
  overallGrade : option string;
  promotionStatus : option PromotionStatus;
  remarks : option string
}.
End StudentAcademics.

(** Rows of [attendance]; timestamps are stored as their time value. *)
Module Attendance.
Record t := {
  id : Z;
  userId : Z;
  subjectId : Z;
  classLevelId : Z;
  date : Z;
  status : AttendanceStatus;
  markedBy : Z;
  notes : option string;
  notificationSent : option bool
}.
End Attendance.

(** Rows of [exam_results]. *)
Module ExamResult.
Record t := {
  id : Z;
  studentId : Z;
  subjectId : Z;
  academicYear : Z;
  term : Z;
  marks : Z;
  grade : string;
  examDate : Z
}.
End ExamResult.

(** [Partial<Omit<User, "id" | "password">>]: every remaining column may be
    given or left out; a nullable column may be given as null. *)
Record UserPatch := {
  set_username : option string;
  set_role : option Role;
  set_fullName : option string;
  set_email : option string;
  set_profilePicture : option (option string);
  set_currentClassId : option (option Z);
  set_academicYear : option (option Z)
}.

(** The values handed to [createAttendance]: the output of
    [insertAttendanceSchema], which omits [id] and [notificationSent]. *)
Record InsertAttendance := {
  ins_userId : Z;
  ins_subjectId : Z;
  ins_classLevelId : Z;
  ins_date : Date;
  ins_status : AttendanceStatus;
  ins_markedBy : Z;
  ins_notes : option string
}.

End Schema.

(** ** Persistence gateway (server/storage.ts) *)

Module Storage.
Import Schema.

(** The tables the operations below touch, each a list of rows in insertion
    order, and the next value of the [serial] sequences that are drawn from. *)
Record Db := {
  users : list User.t;
  studentAcademics : list StudentAcademics.t;
  attendance : list Attendance.t;
  examResults : list ExamResult.t;
  studentAcademics_id_seq : Z;
  attendance_id_seq : Z
}.

Definition with_users (us : list User.t) (d : Db) : Db :=
  {| users := us; studentAcademics := studentAcademics d;
     attendance := attendance d; examResults := examResults d;
     studentAcademics_id_seq := studentAcademics_id_seq d;
     attendance_id_seq := attendance_id_seq d |}.

(** An awaited promise either resolves to a value or rejects (throws). *)
Inductive Outcome (A : Type) := Resolved (a : A) | Rejected.
Arguments Resolved {A} a.
Arguments Rejected {A}.

(** The store together with the failures still to come: each statement sent
    to the database takes the head of [faults], and fails when it is [true]
    (a lost connection, a violated constraint). There is no transaction
    anywhere in the gateway, so every statement commits on its own. *)
Record World := { store : Db; faults : list bool }.

Definition Async (A : Type) : Type := World -> Outcome A * World.

Definition ret {A} (a : A) : Async A := fun w => (Resolved a, w).

Definition bind {A B} (c : Async A) (k : A -> Async B) : Async B :=
  fun w =>
    match c w with
    | (Resolved a, w') => k a w'
    | (Rejected, w') => (Rejected, w')
    end.

Notation "'await' x <- c ; k" := (bind c (fun x => k))
  (at level 10, x name, c at level 100, k at level 200).

(** A [throw] outside any statement, such as reading a property of
    [undefined]. *)
Definition throw {A} : Async A := fun w => (Rejected, w).

(** [try { body } catch (error) { handler }]. *)
Definition try_catch {A} (body handler : Async A) : Async A :=
  fun w =>
    match body w with
    | (Resolved a, w') => (Resolved a, w')
    | (Rejected, w') => handler w'
    end.

(** One awaited statement. [None] is a statement the database refuses
    whatever its state (a NaN or an Invalid Date bound to a column, an empty
    SET list); a failed statement leaves the store as it was. *)
Definition statement {A} (run : option (Db -> A * Db)) : Async A :=
  fun w =>
    let rest := tail (faults w) in
    match run, head (faults w) with
    | Some f, (None | Some false) =>
        let (a, d) := f (store w) in
        (Resolved a, {| store := d; faults := rest |})
    | _, _ => (Rejected, {| store := store w; faults := rest |})
    end.

(** A number bound to an integer column. *)
Definition sql_int (n : number) : option Z :=
  match n with Int z => Some z | NaN => None end.

(** A [Date] bound to a timestamp column. *)
Definition sql_timestamp (d : Date) : option Z :=
  match d with Time ms => Some ms | InvalidDate => None end.

(** [.set(data)] on one row of [users]: the columns that are given. *)
Definition set_user (data : UserPatch) (u : User.t) : User.t :=
  {| User.id := User.id u;
     User.username := default (User.username u) (set_username data);
     User.password := User.password u;
     User.role := default (User.role u) (set_role data);
     User.fullName := default (User.fullName u) (set_fullName data);
     User.email := default (User.email u) (set_email data);
     User.profilePicture := default (User.profilePicture u) (set_profilePicture data);
     User.currentClassId := default (User.currentClassId u) (set_currentClassId data);
     User.academicYear := default (User.academicYear u) (set_academicYear data) |}.

Definition no_values (data : UserPatch) : bool :=
  match data with
  | {| set_username := None; set_role := None; set_fullName := None;
       set_email := None; set_profilePicture := None;
       set_currentClassId := None; set_academicYear := None |} => true
  | _ => false
  end.

(** [db.update(users).set(data).where(eq(users.id, id)).returning()]. *)
Definition update_users (data : UserPatch) (id : number)
    : option (Db -> list User.t * Db) :=
  match sql_int id with
  | Some z =>
      if no_values data then None
      else Some (fun d =>
        let us := map (fun u => if User.id u =? z then set_user data u else u) (users d) in
        (List.filter (fun u => User.id u =? z) us, with_users us d))
  | None => None
  end.

Definition updateUser (id : number) (data : UserPatch) : Async (option User.t) :=
  await rows <- statement (update_users data id);
  ret (head rows).

(** [db.delete(users).where(eq(users.id, id))]. *)
Definition deleteUser (id : number) : Async unit :=
  statement
    (match sql_int id with
     | Some z => Some (fun d =>
         (tt, with_users (List.filter (fun u => negb (User.id u =? z)) (users d)) d))
     | None => None
     end).

(** The row [db.insert(studentAcademics).values({...})] stores: the columns
    left out take their defaults. *)
Definition new_academics (id studentId newClassId academicYear : Z)
    : StudentAcademics.t :=
  {| StudentAcademics.id := id;
     StudentAcademics.studentId := studentId;
     StudentAcademics.classLevelId := newClassId;
     StudentAcademics.academicYear := academicYear;
     StudentAcademics.overallGrade := None;
     StudentAcademics.promotionStatus := Some pending;
     StudentAcademics.remarks := None |}.

Definition insert_academics (studentId : number) (newClassId academicYear : Z)
    : option (Db -> unit * Db) :=
  match sql_int studentId with
  | Some z => Some (fun d =>
      (tt,
       {| users := users d;
          studentAcademics :=
            studentAcademics d
            ++ [new_academics (studentAcademics_id_seq d) z newClassId academicYear];
          attendance := attendance d; examResults := examResults d;
          studentAcademics_id_seq := studentAcademics_id_seq d + 1;
          attendance_id_seq := attendance_id_seq d |}))
  | None => None
  end.

Definition promotion_patch (newClassId academicYear : Z) : UserPatch :=
  {| set_username := None; set_role := None; set_fullName := None;
     set_email := None; set_profilePicture := None;
     set_currentClassId := Some (Some newClassId);
     set_academicYear := Some (Some academicYear) |}.

Definition promoteStudent (studentId : number) (newClassId academicYear : Z)
    : Async unit :=
  await _ <- statement (update_users (promotion_patch newClassId academicYear) studentId);
  statement (insert_academics studentId newClassId academicYear).

Definition getAttendanceByUser (userId : number) : Async (list Attendance.t) :=
  statement
    (match sql_int userId with
     | Some z => Some (fun d =>
         (List.filter (fun a => Attendance.userId a =? z) (attendance d), d))
     | None => None
     end).

Definition getAttendanceByClass (classId : number) (date : Date)
    : Async (list Attendance.t) :=
  statement
    (match sql_int classId, sql_timestamp date with
     | Some c, Some t => Some (fun d =>
         (List.filter
            (fun a => (Attendance.classLevelId a =? c) && (Attendance.date a =? t))
            (attendance d), d))
     | _, _ => None
     end).

Definition new_attendance (id date : Z) (v : InsertAttendance) : Attendance.t :=
  {| Attendance.id := id;
     Attendance.userId := ins_userId v;
     Attendance.subjectId := ins_subjectId v;
     Attendance.classLevelId := ins_classLevelId v;
     Attendance.date := date;
     Attendance.status := ins_status v;
     Attendance.markedBy := ins_markedBy v;
     Attendance.notes := ins_notes v;
     Attendance.notificationSent := Some false |}.

(** [db.insert(attendance).values(attendanceData).returning()]. *)
Definition createAttendance (attendanceData : InsertAttendance)
    : Async (option Attendance.t) :=
  await rows <- statement
    (match sql_timestamp (ins_date attendanceData) with
     | Some t => Some (fun d =>
         let record := new_attendance (attendance_id_seq d) t attendanceData in
         ([record],
          {| users := users d; studentAcademics := studentAcademics d;
             attendance := attendance d ++ [record];
             examResults := examResults d;
             studentAcademics_id_seq := studentAcademics_id_seq d;
             attendance_id_seq := attendance_id_seq d + 1 |}))
     | None => None
     end);
  ret (head rows).

End Storage.

(** ** API surface (server/routes.ts) *)

Module Routes.
Import Schema Storage.

(** A value of a parsed request body. Numbers are the integers that the
    integer columns can hold. *)
Inductive jsval :=
  | VNull
  | VBool (b : bool)
  | VNum (z : Z)
  | VStr (s : string)
  | VDate (d : Date)
  | VObject.

(** [req]: the session's user ([None] when [req.isAuthenticated()] is
    false), the [:id] path segment, the query string and the body. *)
Record Request := {
  user : option User.t;
  params_id : string;
  query : gmap string string;
  body : gmap string jsval
}.

Inductive Payload :=
  | Text (s : string)
  | Message (s : string)
  | ZodError
  | JsonUser (u : option User.t)
  | JsonAttendance (a : option Attendance.t)
  | JsonAttendanceList (l : list Attendance.t).

Record Response := { status : Z; payload : Payload }.

Definition respond (code : Z) (p : Payload) : Async Response :=
  ret {| status := code; payload := p |}.

(** *** zod validators *)

Definition z_string (v : jsval) : option string :=
  match v with VStr s => Some s | _ => None end.

(** [z.string().min(1)]. *)
Definition z_string_min_1 (v : jsval) : option string :=
  match v with
  | VStr s => if bool_decide (s = "") then None else Some s
  | _ => None
  end.

Definition z_number (v : jsval) : option Z :=
  match v with VNum z => Some z | _ => None end.

(** [z.date()] admits [Date] objects that are not Invalid Date. *)
Definition z_date (v : jsval) : option Date :=
  match v with VDate (Time ms) => Some (Time ms) | _ => None end.

(** [z.enum(["admin", "teacher", "student"])]. *)
Definition z_enum_role (v : jsval) : option Role :=
  match v with
  | VStr s =>
      if bool_decide (s = "admin") then Some admin
      else if bool_decide (s = "teacher") then Some teacher
      else if bool_decide (s = "student") then Some student
      else None
  | _ => None
  end.

(** [z.enum(["present", "absent", "late"])]. *)
Definition z_enum_status (v : jsval) : option AttendanceStatus :=
  match v with
  | VStr s =>
      if bool_decide (s = "present") then Some present
      else if bool_decide (s = "absent") then Some absent
      else if bool_decide (s = "late") then Some late
      else None
  | _ => None
  end.

(** [.nullable()]. *)
Definition z_nullable {A} (p : jsval -> option A) (v : jsval) : option (option A) :=
  match v with
  | VNull => Some None
  | _ => Some <$> p v
  end.

(** A key of [z.object]: the validator applied to the property, [None]
    being a missing property. The outer [option] is the verdict. *)
Definition z_required {A} (p : jsval -> option A) (v : option jsval) : option A :=
  v ≫= p.

(** [.optional()]. *)
Definition z_optional {A} (p : jsval -> option A) (v : option jsval)
    : option (option A) :=
  match v with
  | None => Some None
  | Some x => Some <$> p x
  end.

(** [z.undefined()]. *)
Definition z_undefined (v : option jsval) : option unit :=
  match v with None => Some tt | Some _ => None end.

(** [insertAttendanceSchema.safeParse]: the columns of [attendance] without
    [id] and [notificationSent]; [notes] is the one nullable column. *)
Definition insertAttendanceSchema (input : gmap string jsval)
    : option InsertAttendance :=
  userId ← z_required z_number (input !! "userId");
  subjectId ← z_required z_number (input !! "subjectId");
  classLevelId ← z_required z_number (input !! "classLevelId");
  date ← z_required z_date (input !! "date");
  status ← z_required z_enum_status (input !! "status");
  markedBy ← z_required z_number (input !! "markedBy");
  notes ← z_optional (z_nullable z_string) (input !! "notes");
  Some {| ins_userId := userId; ins_subjectId := subjectId;
          ins_classLevelId := classLevelId; ins_date := date;
          ins_status := status; ins_markedBy := markedBy;
          ins_notes := default None notes |}.

Definition is_admin (u : User.t) : bool := Role_eqb (User.role u) admin.

(** *** Middleware *)

Definition requireAdmin (req : Request) (next : Async Response) : Async Response :=
  match user req with
  | None => respond 401 (Text "Unauthorized")
  | Some u =>
      if negb (is_admin u) then respond 403 (Text "Forbidden") else next
  end.

Definition requireTeacher (req : Request) (next : Async Response) : Async Response :=
  match user req with
  | None => respond 401 (Text "Unauthorized")
  | Some u =>
      if negb (Role_eqb (User.role u) teacher) && negb (is_admin u)
      then respond 403 (Text "Forbidden")
      else next
  end.

(** Whether [requireAdmin] calls [next] for the request. *)
Definition admits_admin (req : Request) : bool :=
  match user req with
  | Some u => is_admin u
  | None => false
  end.

(** A query parameter in a condition: absent and empty strings are falsy. *)
Definition truthy (v : option string) : bool :=
  match v with
  | Some s => negb (bool_decide (s = ""))
  | None => false
  end.

Section Handlers.

(** Built-ins of the platform and of zod that the handlers call. *)
Variable parseInt : string -> number.
Variable newDate : string -> Date.
Variable isEmail : string -> bool.

(** [z.string().email()]. *)
Definition z_email (v : jsval) : option string :=
  match v with
  | VStr s => if isEmail s then Some s else None
  | _ => None
  end.

(** The [updateSchema] of PATCH /api/users/:id; unknown keys are stripped. *)
Definition updateSchema (callerRole : Role) (input : gmap string jsval)
    : option UserPatch :=
  fullName ← z_optional z_string_min_1 (input !! "fullName");
  email ← z_optional z_email (input !! "email");
  profilePicture ← z_optional z_string (input !! "profilePicture");
  role ← (if Role_eqb callerRole admin
          then z_optional z_enum_role (input !! "role")
          else _ ← z_undefined (input !! "role"); Some None);
  Some {| set_username := None; set_role := role; set_fullName := fullName;
          set_email := email; set_profilePicture := Some <$> profilePicture;
          set_currentClassId := None; set_academicYear := None |}.

(** PATCH /api/users/:id *)
Definition patch_user (req : Request) : Async Response :=
  match user req with
  | None => respond 401 (Text "Unauthorized")
  | Some caller =>
      if negb (is_admin caller)
         && number_neqb (parseInt (params_id req)) (Int (User.id caller))
      then respond 403 (Text "Forbidden")
      else
        match updateSchema (User.role caller) (body req) with
        | None => respond 400 ZodError
        | Some data =>
            try_catch
              (await u <- updateUser (parseInt (params_id req)) data;
               respond 200 (JsonUser u))
              (respond 404 (Message "User not found"))
        end
  end.

(** DELETE /api/users/:id *)
Definition delete_user (req : Request) : Async Response :=
  requireAdmin req
    (try_catch
       (await _ <- deleteUser (parseInt (params_id req));
        respond 200 (Text "OK"))
       (respond 404 (Message "User not found"))).

(** GET /api/attendance *)
Definition get_attendance (req : Request) : Async Response :=
  match user req with
  | None => respond 401 (Text "Unauthorized")
  | Some caller =>
      await attendance <-
        (if Role_eqb (User.role caller) student
         then getAttendanceByUser (Int (User.id caller))
         else
           let classId := query req !! "classId" in
           let date := query req !! "date" in
           if truthy classId && truthy date
           then getAttendanceByClass (parseInt (default "" classId))
                  (newDate (default "" date))
           else ret []);
      respond 200 (JsonAttendanceList attendance)
  end.

(** POST /api/attendance. The handler reads [req.user.id], which throws
    when there is no user. *)
Definition post_attendance (req : Request) : Async Response :=
  requireTeacher req
    match user req with
    | None => throw
    | Some caller =>
        match insertAttendanceSchema
                (<["markedBy" := VNum (User.id caller)]> (body req)) with
        | None => respond 400 ZodError
        | Some data =>
            await attendance <- createAttendance data;
            respond 201 (JsonAttendance attendance)
        end
    end.

(** [const { newClassId, academicYear } = req.body]: the body is not
    validated, and [promoteStudent] declares both as numbers. *)
Definition promote_args (input : gmap string jsval) : option (Z * Z) :=
  match input !! "newClassId", input !! "academicYear" with
  | Some (VNum newClassId), Some (VNum academicYear) =>
      Some (newClassId, academicYear)
  | _, _ => None
  end.

(** POST /api/students/:id/promote. [requireAdmin] runs before the body is
    read: a request that it refuses is answered whatever the body holds, the
    handler behind it never being called. For a request that it lets
    through, the handler is given for bodies that carry the two numbers
    ([None] otherwise: such calls are outside the declared types). *)
Definition post_promote (req : Request) : option (Async Response) :=
  if admits_admin req then
    '(newClassId, academicYear) ← promote_args (body req);
    Some
      (requireAdmin req
         (try_catch
            (await _ <- promoteStudent (parseInt (params_id req)) newClassId academicYear;
             respond 200 (Text "OK"))
            (respond 500 (Message "Failed to promote student"))))
  else Some (requireAdmin req throw).

End Handlers.

End Routes.

(** ** Attendance statistics (client, attendance-stats component) *)

Module Stats.

(** The [stats] object of one month as the component receives it. The day
    counts are the [integer] columns of [attendance_stats]; sums of such
    counts stay far below 2^53, where JavaScript's number addition is exact,
    so they are kept in [Z]. *)
Record MonthStats := {
  presentDays : Z;
  absentDays : Z;
  lateDays : Z
}.

(** A JavaScript number holding an integer, as a binary64 float (the
    nearest one, for integers below 2^63 in absolute value). *)
Definition Z2F (z : Z) : float :=
  if z <? 0 then PrimFloat.opp (PrimFloat.of_uint63 (Uint63.of_Z (- z)))
  else PrimFloat.of_uint63 (Uint63.of_Z z).

(** [monthlyStats?.reduce((acc, month) => f acc month, 0) || 0]: the query
    data may be undefined, in which case [|| 0] gives 0; on an integer the
    [|| 0] changes nothing. *)
Definition reduce_or_0 (f : Z -> MonthStats -> Z)
    (monthlyStats : option (list MonthStats)) : Z :=
  match monthlyStats with
  | Some ms => fold_left f ms 0
  | None => 0
  end.

Definition totalDays (monthlyStats : option (list MonthStats)) : Z :=
  reduce_or_0
    (fun acc month => acc + presentDays month + absentDays month + lateDays month)
    monthlyStats.

Definition totalPresent (monthlyStats : option (list MonthStats)) : Z :=
  reduce_or_0 (fun acc month => acc + presentDays month) monthlyStats.

(** [totalDays ? (totalPresent / totalDays) * 100 : 0], the division and the
    product being those of binary64. *)
Definition overallAttendance (monthlyStats : option (list MonthStats)) : float :=
  if totalDays monthlyStats =? 0 then 0%float
  else PrimFloat.mul
         (PrimFloat.div (Z2F (totalPresent monthlyStats)) (Z2F (totalDays monthlyStats)))
         100%float.

(** The percentage in the words of the specification, for given counts. *)
Definition attendance_percentage (present absent late : Z) : float :=
  if present + absent + late =? 0 then 0%float
  else PrimFloat.mul (PrimFloat.div (Z2F present) (Z2F (present + absent + late)))
         100%float.

Definition sumZ (l : list Z) : Z := fold_right Z.add 0 l.

End Stats.

(** ** Statements of the workflow rules *)

Module Spec.
Import Schema Storage.

(** What [promoteStudent] writes into a row of [users]. *)
Definition promoted (newClassId academicYear : Z) (u : User.t) : User.t :=
  {| User.id := User.id u;
     User.username := User.username u;
     User.password := User.password u;
     User.role := User.role u;
     User.fullName := User.fullName u;
     User.email := User.email u;
     User.profilePicture := User.profilePicture u;
     User.currentClassId := Some newClassId;
     User.academicYear := Some academicYear |}.

(** The [users] table after the first write of a promotion. *)
Definition users_promoted (z newClassId academicYear : Z) (us : list User.t)
    : list User.t :=
  map (fun u => if User.id u =? z then promoted newClassId academicYear u else u) us.

(** The store after the first write only, and after both writes. *)
Definition after_update (z newClassId academicYear : Z) (d : Db) : Db :=
  with_users (users_promoted z newClassId academicYear (users d)) d.

Definition after_promotion (z newClassId academicYear : Z) (d : Db) : Db :=
  {| users := users_promoted z newClassId academicYear (users d);
     studentAcademics :=
       studentAcademics d
       ++ [new_academics (studentAcademics_id_seq d) z newClassId academicYear];
     attendance := attendance d;
     examResults := examResults d;
     studentAcademics_id_seq := studentAcademics_id_seq d + 1;
     attendance_id_seq := attendance_id_seq d |}.

(** The string of an attendance status, as a body carries it. *)
Definition AttendanceStatus_name (st : AttendanceStatus) : string :=
  match st with
  | present => "present"
  | absent => "absent"
  | late => "late"
  end.

(** The [notes] column of a record made from a body: the string given, and
    null when [notes] is left out or null. *)
Definition notes_given (v : option Routes.jsval) : option string :=
  match v with
  | Some (Routes.VStr n) => Some n
  | _ => None
  end.

(** Whether the [n]-th statement from now fails. *)
Definition fails (n : nat) (fs : list bool) : bool := nth n fs false.

(** Atomicity of a promotion as the specification words it: after the call
    either both writes are visible or neither is. *)
Definition promotion_atomic (studentId newClassId academicYear : Z) (w : World)
    : Prop :=
  let d := store w in
  let d' := store (snd (promoteStudent (Int studentId) newClassId academicYear w)) in
  (users d' = users_promoted studentId newClassId academicYear (users d)
   /\ studentAcademics d'
      = studentAcademics d
        ++ [new_academics (studentAcademics_id_seq d) studentId newClassId academicYear])
  \/ (users d' = users d /\ studentAcademics d' = studentAcademics d).

End Spec.

(** ** Sample data *)

Module Sample.
Import Schema Storage Routes.

Definition digit_value (a : Ascii.ascii) : option Z :=
  let n := Z.of_nat (Ascii.nat_of_ascii a) in
  if (48 <=? n) && (n <=? 57) then Some (n - 48) else None.

Fixpoint leading_digits (s : string) (acc : option Z) : option Z :=
  match s with
  | String a rest =>
      match digit_value a with
      | Some v => leading_digits rest (Some (10 * default 0 acc + v))
      | None => acc
      end
  | EmptyString => acc
  end.

(** [parseInt] on path segments made of decimal digits, which is all the
    examples use: the leading digits, NaN when there are none. *)
Definition parseInt (s : string) : number :=
  match leading_digits s None with
  | Some z => Int z
  | None => NaN
  end.

(** Stand-ins for [new Date(string)] and for zod's e-mail pattern; no example
    depends on which strings they accept. *)
Definition newDate (s : string) : Date := InvalidDate.

Definition isEmail (s : string) : bool :=
  match s with EmptyString => false | String _ _ => true end.

Definition alice : User.t :=
  {| User.id := 1; User.username := "alice"; User.password := "hash-a";
     User.role := admin; User.fullName := "Alice"; User.email := "alice@school";
     User.profilePicture := None; User.currentClassId := None;
     User.academicYear := None |}.

Definition tom : User.t :=
  {| User.id := 2; User.username := "tom"; User.password := "hash-t";
     User.role := teacher; User.fullName := "Tom"; User.email := "tom@school";
     User.profilePicture := None; User.currentClassId := None;
     User.academicYear := None |}.

Definition sam : User.t :=
  {| User.id := 3; User.username := "sam"; User.password := "hash-s";
     User.role := student; User.fullName := "Sam"; User.email := "sam@school";
     User.profilePicture := None; User.currentClassId := Some 5;
     User.academicYear := Some 2024 |}.

(** Sam was marked present by Tom, and has one exam result. *)
Definition sam_present : Attendance.t :=
  {| Attendance.id := 1; Attendance.userId := 3; Attendance.subjectId := 7;
     Attendance.classLevelId := 5; Attendance.date := 1704067200000;
     Attendance.status := present; Attendance.markedBy := 2;
     Attendance.notes := None; Attendance.notificationSent := Some false |}.

Definition sam_result : ExamResult.t :=
  {| ExamResult.id := 1; ExamResult.studentId := 3; ExamResult.subjectId := 7;
     ExamResult.academicYear := 2024; ExamResult.term := 1;
     ExamResult.marks := 88; ExamResult.grade := "A";
     ExamResult.examDate := 1704067200000 |}.

Definition school : Db :=
  {| users := [alice; tom; sam];
     studentAcademics := [];
     attendance := [sam_present];
     examResults := [sam_result];
     studentAcademics_id_seq := 1;
     attendance_id_seq := 2 |}.

(** No failure is due. *)
Definition calm : World := {| store := school; faults := [] |}.

(** The next statement fails. *)
Definition refusing : World := {| store := school; faults := [true] |}.

(** The second statement from now fails. *)
Definition second_fails : World := {| store := school; faults := [false; true] |}.

Definition request (caller : option User.t) (id : string)
    (q : gmap string string) (b : gmap string jsval) : Request :=
  {| user := caller; params_id := id; query := q; body := b |}.

(** Alice promotes Sam (id 3) to class 6 for 2025. *)
Definition promote_sam : Request :=
  request (Some alice) "3" ∅
    (<["newClassId" := VNum 6]> (<["academicYear" := VNum 2025]> ∅)).

(** Alice renames, and then deletes, the user 99, who does not exist. *)
Definition rename_99 : Request :=
  request (Some alice) "99" ∅ (<["fullName" := VStr "Nobody"]> ∅).

Definition rename_data : UserPatch :=
  {| set_username := None; set_role := None; set_fullName := Some "Nobody";
     set_email := None; set_profilePicture := None;
     set_currentClassId := None; set_academicYear := None |}.

Definition delete_99 : Request := request (Some alice) "99" ∅ ∅.

(** Sam tries to delete Alice, and to make himself an admin. *)
Definition sam_deletes_alice : Request := request (Some sam) "1" ∅ ∅.

Definition sam_wants_admin : Request :=
  request (Some sam) "3" ∅
    (<["role" := VStr "admin"]> (<["fullName" := VStr "Sam"]> ∅)).

(** Alice makes Sam a teacher. *)
Definition alice_makes_sam_teacher : Request :=
  request (Some alice) "3" ∅ (<["role" := VStr "teacher"]> ∅).

(** Tom marks Sam late, with a body that claims the mark was made by 999. *)
Definition tom_marks_sam : Request :=
  request (Some tom) "" ∅
    (list_to_map
       [("userId", VNum 3); ("subjectId", VNum 7); ("classLevelId", VNum 5);
        ("date", VDate (Time 1704153600000)); ("status", VStr "late");
        ("markedBy", VNum 999)]).

(** Tom asks for attendance with a class but no date. *)
Definition tom_lists_class : Request :=
  request (Some tom) "" (<["classId" := "5"]> ∅) ∅.

End Sample.

(** ** Persistence gateway: the remaining operations on users, academics,
       attendance and exam results *)

Module Gateway.
Import Schema Storage.

Definition with_studentAcademics (rows : list StudentAcademics.t) (d : Db) : Db :=
  {| users := users d; studentAcademics := rows;
     attendance := attendance d; examResults := examResults d;
     studentAcademics_id_seq := studentAcademics_id_seq d;
     attendance_id_seq := attendance_id_seq d |}.

Definition with_attendance (rows : list Attendance.t) (d : Db) : Db :=
  {| users := users d; studentAcademics := studentAcademics d;
     attendance := rows; examResults := examResults d;
     studentAcademics_id_seq := studentAcademics_id_seq d;
     attendance_id_seq := attendance_id_seq d |}.

(** [db.select().from(table).where(cond)], which leaves the store alone. *)
Definition select {R} (table : Db -> list R) (cond : R -> bool) (d : Db)
    : list R * Db :=
  (List.filter cond (table d), d).

Definition getUser (id : number) : Async (option User.t) :=
  await rows <- statement
    (match sql_int id with
     | Some z => Some (select users (fun u => User.id u =? z))
     | None => None
     end);
  ret (head rows).


Definition getAllUsers : Async (list User.t) :=
  statement (Some (fun d => (users d, d))).

Definition getUsersByRole (role : Role) : Async (list User.t) :=
  statement (Some (select users (fun u => Role_eqb (User.role u) role))).

Definition getStudentAcademics (studentId : number)
    : Async (list StudentAcademics.t) :=
  statement
    (match sql_int studentId with
     | Some z => Some (select studentAcademics
                         (fun r => StudentAcademics.studentId r =? z))
     | None => None
     end).

(** [record?.academicYear]: undefined without a user, and the column's
    value, which may be null, with one. *)
Definition getCurrentAcademicYear (studentId : number)
    : Async (option (option Z)) :=
  await rows <- statement
    (match sql_int studentId with
     | Some z => Some (select users (fun u => User.id u =? z))
     | None => None
     end);
  ret (User.academicYear <$> head rows).

Definition getExamResults (studentId : number) : Async (list ExamResult.t) :=
  statement
    (match sql_int studentId with
     | Some z => Some (select examResults (fun e => ExamResult.studentId e =? z))
     | None => None
     end).

(** [Partial<Omit<StudentAcademics, "id">>]. *)
Module AcademicsPatch.
Record t := {
  studentId : option Z;
  classLevelId : option Z;
  academicYear : option Z;
  overallGrade : option (option string);
  promotionStatus : option (option PromotionStatus);
  remarks : option (option string)
}.
Definition no_values (data : t) : bool :=
  match data with
  | {| studentId := None; classLevelId := None; academicYear := None;
       overallGrade := None; promotionStatus := None; remarks := None |} => true
  | _ => false
  end.
End AcademicsPatch.

Definition set_academics (data : AcademicsPatch.t) (r : StudentAcademics.t)
    : StudentAcademics.t :=
  {| StudentAcademics.id := StudentAcademics.id r;
     StudentAcademics.studentId :=
       default (StudentAcademics.studentId r) (AcademicsPatch.studentId data);
     StudentAcademics.classLevelId :=
       default (StudentAcademics.classLevelId r) (AcademicsPatch.classLevelId data);
     StudentAcademics.academicYear :=
       default (StudentAcademics.academicYear r) (AcademicsPatch.academicYear data);
     StudentAcademics.overallGrade :=
       default (StudentAcademics.overallGrade r) (AcademicsPatch.overallGrade data);
     StudentAcademics.promotionStatus :=
       default (StudentAcademics.promotionStatus r)
         (AcademicsPatch.promotionStatus data);
     StudentAcademics.remarks :=
       default (StudentAcademics.remarks r) (AcademicsPatch.remarks data) |}.

(** [db.update(studentAcademics).set(data).where(eq(studentAcademics.id, id))
    .returning()], first row. *)
Definition updateStudentAcademics (id : number) (data : AcademicsPatch.t)
    : Async (option StudentAcademics.t) :=
  await rows <- statement
    (match sql_int id with
     | Some z =>
         if AcademicsPatch.no_values data then None
         else Some (fun d =>
           let rows :=
             map (fun r => if StudentAcademics.id r =? z then set_academics data r else r)
               (studentAcademics d) in
           (List.filter (fun r => StudentAcademics.id r =? z) rows,
            with_studentAcademics rows d))
     | None => None
     end);
  ret (head rows).

(** [Partial<Omit<Attendance, "id">>]. *)
Module AttendancePatch.
Record t := {
  userId : option Z;
  subjectId : option Z;
  classLevelId : option Z;
  date : option Date;
  status : option AttendanceStatus;
  markedBy : option Z;
  notes : option (option string);
  notificationSent : option (option bool)
}.
Definition no_values (data : t) : bool :=
  match data with
  | {| userId := None; subjectId := None; classLevelId := None; date := None;
       status := None; markedBy := None; notes := None;
       notificationSent := None |} => true
  | _ => false
  end.
End AttendancePatch.

Definition set_attendance (date : option Z) (data : AttendancePatch.t)
    (a : Attendance.t) : Attendance.t :=
  {| Attendance.id := Attendance.id a;
     Attendance.userId := default (Attendance.userId a) (AttendancePatch.userId data);
     Attendance.subjectId :=
       default (Attendance.subjectId a) (AttendancePatch.subjectId data);
     Attendance.classLevelId :=
       default (Attendance.classLevelId a) (AttendancePatch.classLevelId data);
     Attendance.date := default (Attendance.date a) date;
     Attendance.status := default (Attendance.status a) (AttendancePatch.status data);
     Attendance.markedBy :=
       default (Attendance.markedBy a) (AttendancePatch.markedBy data);
     Attendance.notes := default (Attendance.notes a) (AttendancePatch.notes data);
     Attendance.notificationSent :=
       default (Attendance.notificationSent a)
         (AttendancePatch.notificationSent data) |}.

(** The timestamp to write, if any; [None] when the date given is Invalid
    Date, which cannot be bound. *)
Definition bound_date (data : AttendancePatch.t) : option (option Z) :=
  match AttendancePatch.date data with
  | None => Some None
  | Some dt => Some <$> sql_timestamp dt
  end.

Definition updateAttendance (id : number) (data : AttendancePatch.t)
    : Async (option Attendance.t) :=
  await rows <- statement
    (match sql_int id, bound_date data with
     | Some z, Some date =>
         if AttendancePatch.no_values data then None
         else Some (fun d =>
           let rows :=
             map (fun a => if Attendance.id a =? z then set_attendance date data a else a)
               (attendance d) in
           (List.filter (fun a => Attendance.id a =? z) rows,
            with_attendance rows d))
     | _, _ => None
     end);
  ret (head rows).

End Gateway.

(** ** Class levels, subjects and the remaining inserts *)

Module Catalog.
Import Schema Storage.

(** Rows of [class_levels], and the values of an insert. *)
Module ClassLevel.
Record t := {
  id : Z;
  name : string;
  description : option string;
  academicYear : Z
}.
Record values := {
  new_name : string;
  new_description : option string;
  new_academicYear : Z
}.
End ClassLevel.

(** Rows of [subjects], and the values of an insert. *)
Module Subject.
Record t := {
  id : Z;
  name : string;
  description : option string;
  teacherId : option Z;
  classLevelId : Z
}.
Record values := {
  new_name : string;
  new_description : option string;
  new_teacherId : option Z;
  new_classLevelId : Z
}.
End Subject.

(** [Omit<ExamResult, "id">]. *)
Record NewExamResult := {
  new_studentId : Z;
  new_subjectId : Z;
  new_academicYear : Z;
  new_term : Z;
  new_marks : Z;
  new_grade : string;
  new_examDate : Date
}.

(** [InsertUser]: the nullable columns may be left out or null, and are
    stored as null either way. *)
Record InsertUser := {
  ins_username : string;
  ins_password : string;
  ins_role : Role;
  ins_fullName : string;
  ins_email : string;
  ins_profilePicture : option string;
  ins_currentClassId : option Z;
  ins_academicYear : option Z
}.

(** The tables and sequences beside those of [Db]. *)
Record Tables := {
  classLevels : list ClassLevel.t;
  subjects : list Subject.t;
  classLevels_id_seq : Z;
  subjects_id_seq : Z;
  examResults_id_seq : Z;
  users_id_seq : Z
}.

(** The whole database, with the failures still to come (in [world]). *)
Record Database := { world : World; tables : Tables }.

Module Task.

Definition t (A : Type) : Type := Database -> Outcome A * Database.

Definition ret {A} (a : A) : t A := fun s => (Resolved a, s).

Definition bind {A B} (c : t A) (k : A -> t B) : t B :=
  fun s =>
    match c s with
    | (Resolved a, s') => k a s'
    | (Rejected, s') => (Rejected, s')
    end.

Definition try_catch {A} (body handler : t A) : t A :=
  fun s =>
    match body s with
    | (Resolved a, s') => (Resolved a, s')
    | (Rejected, s') => handler s'
    end.

Definition throw {A} : t A := fun s => (Rejected, s).

(** An operation of the gateway that only touches [Db]. *)
Definition lift {A} (c : Async A) : t A :=
  fun s =>
    let (o, w) := c (world s) in
    (o, {| world := w; tables := tables s |}).

(** One awaited statement over the whole database; it takes the next
    failure flag like [Storage.statement]. *)
Definition statement {A} (run : option (Db -> Tables -> A * Db * Tables)) : t A :=
  fun s =>
    let rest := tail (faults (world s)) in
    match run, head (faults (world s)) with
    | Some f, (None | Some false) =>
        let '(a, d, tb) := f (store (world s)) (tables s) in
        (Resolved a, {| world := {| store := d; faults := rest |}; tables := tb |})
    | _, _ =>
        (Rejected,
         {| world := {| store := store (world s); faults := rest |};
            tables := tables s |})
    end.

End Task.

Declare Scope task_scope.
Delimit Scope task_scope with task.
Notation "'await' x <- c ; k" := (Task.bind c (fun x => k))
  (at level 10, x name, c at level 100, k at level 200) : task_scope.

(** A select on the tables of this module. *)
Definition select {R} (table : Tables -> list R) (cond : R -> bool)
    : option (Db -> Tables -> list R * Db * Tables) :=
  Some (fun d tb => (List.filter cond (table tb), d, tb)).

Definition getClassLevels : Task.t (list ClassLevel.t) :=
  Task.statement (Some (fun d tb => (classLevels tb, d, tb))).

Definition getClassLevelById (id : number) : Task.t (option ClassLevel.t) :=
  (await rows <- Task.statement
     (match sql_int id with
      | Some z => select classLevels (fun c => ClassLevel.id c =? z)
      | None => None
      end);
   Task.ret (head rows))%task.

Definition createClassLevel (data : ClassLevel.values)
    : Task.t (option ClassLevel.t) :=
  (await rows <- Task.statement
     (Some (fun d tb =>
        let classLevel :=
          {| ClassLevel.id := classLevels_id_seq tb;
             ClassLevel.name := ClassLevel.new_name data;
             ClassLevel.description := ClassLevel.new_description data;
             ClassLevel.academicYear := ClassLevel.new_academicYear data |} in
        ([classLevel], d,
         {| classLevels := classLevels tb ++ [classLevel];
            subjects := subjects tb;
            classLevels_id_seq := classLevels_id_seq tb + 1;
            subjects_id_seq := subjects_id_seq tb;
            examResults_id_seq := examResults_id_seq tb;
            users_id_seq := users_id_seq tb |})));
   Task.ret (head rows))%task.

Definition getSubjects : Task.t (list Subject.t) :=
  Task.statement (Some (fun d tb => (subjects tb, d, tb))).

(** [eq(subjects.teacherId, teacherId)]: a null [teacherId] matches nothing. *)
Definition getSubjectsByTeacher (teacherId : number) : Task.t (list Subject.t) :=
  Task.statement
    (match sql_int teacherId with
     | Some z => select subjects
                   (fun sb => match Subject.teacherId sb with
                              | Some t => t =? z
                              | None => false
                              end)
     | None => None
     end).

Definition getSubjectsByClass (classId : number) : Task.t (list Subject.t) :=
  Task.statement
    (match sql_int classId with
     | Some z => select subjects (fun sb => Subject.classLevelId sb =? z)
     | None => None
     end).

Definition createSubject (subject : Subject.values) : Task.t (option Subject.t) :=
  (await rows <- Task.statement
     (Some (fun d tb =>
        let newSubject :=
          {| Subject.id := subjects_id_seq tb;
             Subject.name := Subject.new_name subject;
             Subject.description := Subject.new_description subject;
             Subject.teacherId := Subject.new_teacherId subject;
             Subject.classLevelId := Subject.new_classLevelId subject |} in
        ([newSubject], d,
         {| classLevels := classLevels tb;
            subjects := subjects tb ++ [newSubject];
            classLevels_id_seq := classLevels_id_seq tb;
            subjects_id_seq := subjects_id_seq tb + 1;
            examResults_id_seq := examResults_id_seq tb;
            users_id_seq := users_id_seq tb |})));
   Task.ret (head rows))%task.

Definition deleteSubject (id : number) : Task.t unit :=
  Task.statement
    (match sql_int id with
     | Some z => Some (fun d tb =>
         (tt, d,
          {| classLevels := classLevels tb;
             subjects := List.filter (fun sb => negb (Subject.id sb =? z)) (subjects tb);
             classLevels_id_seq := classLevels_id_seq tb;
             subjects_id_seq := subjects_id_seq tb;
             examResults_id_seq := examResults_id_seq tb;
             users_id_seq := users_id_seq tb |}))
     | None => None
     end).

Definition createExamResult (result : NewExamResult)
    : Task.t (option ExamResult.t) :=
  (await rows <- Task.statement
     (match sql_timestamp (new_examDate result) with
      | Some t => Some (fun d tb =>
          let record :=
            {| ExamResult.id := examResults_id_seq tb;
               ExamResult.studentId := new_studentId result;
               ExamResult.subjectId := new_subjectId result;
               ExamResult.academicYear := new_academicYear result;
               ExamResult.term := new_term result;
               ExamResult.marks := new_marks result;
               ExamResult.grade := new_grade result;
               ExamResult.examDate := t |} in
          ([record],
           {| users := users d; studentAcademics := studentAcademics d;
              attendance := attendance d;
              examResults := examResults d ++ [record];
              studentAcademics_id_seq := studentAcademics_id_seq d;
              attendance_id_seq := attendance_id_seq d |},
           {| classLevels := classLevels tb; subjects := subjects tb;
              classLevels_id_seq := classLevels_id_seq tb;
              subjects_id_seq := subjects_id_seq tb;
              examResults_id_seq := examResults_id_seq tb + 1;
              users_id_seq := users_id_seq tb |}))
      | None => None
      end);
   Task.ret (head rows))%task.

Definition createUser (insertUser : InsertUser) : Task.t (option User.t) :=
  (await rows <- Task.statement
     (Some (fun d tb =>
        let user :=
          {| User.id := users_id_seq tb;
             User.username := ins_username insertUser;
             User.password := ins_password insertUser;
             User.role := ins_role insertUser;
             User.fullName := ins_fullName insertUser;
             User.email := ins_email insertUser;
             User.profilePicture := ins_profilePicture insertUser;
             User.currentClassId := ins_currentClassId insertUser;
             User.academicYear := ins_academicYear insertUser |} in
        ([user], with_users (users d ++ [user]) d,
         {| classLevels := classLevels tb; subjects := subjects tb;
            classLevels_id_seq := classLevels_id_seq tb;
            subjects_id_seq := subjects_id_seq tb;
            examResults_id_seq := examResults_id_seq tb;
            users_id_seq := users_id_seq tb + 1 |})));
   Task.ret (head rows))%task.

End Catalog.

(** ** API surface: the remaining routes *)

Module Api.
Import Schema Storage Routes Gateway Catalog.

Inductive Content :=
  | Plain (s : string)
  | Msg (message : string)
  | Issues
  | Users (l : list User.t)
  | Academics (l : list StudentAcademics.t)
  | Results (l : list ExamResult.t)
  | OneResult (r : option ExamResult.t)
  | ClassLevels (l : list ClassLevel.t)
  | OneClassLevel (c : ClassLevel.t)
  | Subjects (l : list Subject.t)
  | OneSubject (sb : option Subject.t).

Record Reply := { code : Z; content : Content }.

Definition reply (c : Z) (b : Content) : Task.t Reply :=
  Task.ret {| code := c; content := b |}.

(** The two middlewares, in front of a handler over the whole database. *)
Definition requireAdmin (req : Request) (next : Task.t Reply) : Task.t Reply :=
  match user req with
  | None => reply 401 (Plain "Unauthorized")
  | Some u =>
      if negb (is_admin u) then reply 403 (Plain "Forbidden") else next
  end.

Definition requireTeacher (req : Request) (next : Task.t Reply) : Task.t Reply :=
  match user req with
  | None => reply 401 (Plain "Unauthorized")
  | Some u =>
      if negb (Role_eqb (User.role u) teacher) && negb (is_admin u)
      then reply 403 (Plain "Forbidden")
      else next
  end.

(** Whether [requireTeacher] calls [next] for the request. *)
Definition admits_teacher (req : Request) : bool :=
  match user req with
  | Some u => Role_eqb (User.role u) teacher || is_admin u
  | None => false
  end.

(** [["admin", "teacher", "student"].includes(role)], with the role that an
    admitted string names. *)
Definition Role_of_string (s : string) : option Role :=
  if bool_decide (s = "admin") then Some admin
  else if bool_decide (s = "teacher") then Some teacher
  else if bool_decide (s = "student") then Some student
  else None.

(** [insertSubjectSchema.safeParse]: the columns of [subjects] without [id];
    [description] and [teacherId] are nullable. *)
Definition insertSubjectSchema (input : gmap string jsval) : option Subject.values :=
  name ← z_required z_string (input !! "name");
  description ← z_optional (z_nullable z_string) (input !! "description");
  teacherId ← z_optional (z_nullable z_number) (input !! "teacherId");
  classLevelId ← z_required z_number (input !! "classLevelId");
  Some {| Subject.new_name := name;
          Subject.new_description := default None description;
          Subject.new_teacherId := default None teacherId;
          Subject.new_classLevelId := classLevelId |}.

Section Handlers.

Variable parseInt : string -> number.
Variable newDate : string -> Date.

Local Open Scope task_scope.

(** GET /api/users *)
Definition get_users (req : Request) : Task.t Reply :=
  requireAdmin req
    (await users <- Task.lift getAllUsers;
     reply 200 (Users users)).

(** GET /api/users/:role *)
Definition get_users_by_role (req : Request) (params_role : string) : Task.t Reply :=
  requireAdmin req
    match Role_of_string params_role with
    | None => reply 400 (Msg "Invalid role")
    | Some role =>
        await users <- Task.lift (getUsersByRole role);
        reply 200 (Users users)
    end.

(** GET /api/class-levels *)
Definition get_class_levels (req : Request) : Task.t Reply :=
  await classLevels <- getClassLevels;
  reply 200 (ClassLevels classLevels).

(** GET /api/class-levels/:id *)
Definition get_class_level (req : Request) : Task.t Reply :=
  await classLevel <- getClassLevelById (parseInt (params_id req));
  match classLevel with
  | None => reply 404 (Msg "Class level not found")
  | Some c => reply 200 (OneClassLevel c)
  end.

(** GET /api/students/:id/academics *)
Definition get_student_academics (req : Request) : Task.t Reply :=
  match user req with
  | None => reply 401 (Plain "Unauthorized")
  | Some _ =>
      await academics <- Task.lift (getStudentAcademics (parseInt (params_id req)));
      reply 200 (Academics academics)
  end.

(** GET /api/students/:id/results *)
Definition get_student_results (req : Request) : Task.t Reply :=
  match user req with
  | None => reply 401 (Plain "Unauthorized")
  | Some _ =>
      await results <- Task.lift (getExamResults (parseInt (params_id req)));
      reply 200 (Results results)
  end.

(** The fields that POST /api/results takes from the body, which it does
    not validate; [examDate] goes through [new Date]. *)
Definition result_args (input : gmap string jsval) : option NewExamResult :=
  match input !! "studentId", input !! "subjectId", input !! "academicYear",
        input !! "term", input !! "marks", input !! "grade", input !! "examDate" with
  | Some (VNum studentId), Some (VNum subjectId), Some (VNum academicYear),
    Some (VNum term), Some (VNum marks), Some (VStr grade), Some (VStr examDate) =>
      Some {| new_studentId := studentId; new_subjectId := subjectId;
              new_academicYear := academicYear; new_term := term;
              new_marks := marks; new_grade := grade;
              new_examDate := newDate examDate |}
  | _, _, _, _, _, _, _ => None
  end.

(** POST /api/results. [requireTeacher] runs before the body is read: a
    request that it refuses is answered whatever the body holds. For a
    request that it lets through, the handler is given for bodies that
    carry fields of the declared types ([None] otherwise). *)
Definition post_results (req : Request) : option (Task.t Reply) :=
  if admits_teacher req then
    result ← result_args (body req);
    Some
      (requireTeacher req
         (Task.try_catch
            (await created <- createExamResult result;
             reply 201 (OneResult created))
            (reply 500 (Msg "Failed to create exam result"))))
  else Some (requireTeacher req Task.throw).

(** GET /api/subjects *)
Definition get_subjects (req : Request) : Task.t Reply :=
  await subjects <- getSubjects;
  reply 200 (Subjects subjects).

(** GET /api/subjects/class/:classId *)
Definition get_subjects_by_class (req : Request) (params_classId : string)
    : Task.t Reply :=
  await subjects <- getSubjectsByClass (parseInt params_classId);
  reply 200 (Subjects subjects).

(** GET /api/subjects/teacher/:teacherId *)
Definition get_subjects_by_teacher (req : Request) (params_teacherId : string)
    : Task.t Reply :=
  await subjects <- getSubjectsByTeacher (parseInt params_teacherId);
  reply 200 (Subjects subjects).

(** POST /api/subjects *)
Definition post_subjects (req : Request) : Task.t Reply :=
  requireAdmin req
    match insertSubjectSchema (body req) with
    | None => reply 400 Issues
    | Some data =>
        await subject <- createSubject data;
        reply 201 (OneSubject subject)
    end.

End Handlers.

End Api.

(** ** Invariants of the serial identifiers, and a sample catalog *)

Module Invariant.
Import Schema Storage Catalog.

(** The rows of a table have distinct ids, all below the next value of the
    table's sequence. *)
Definition serial {R} (rid : R -> Z) (rows : list R) (seq : Z) : Prop :=
  NoDup (map rid rows) /\ Forall (fun r => rid r < seq) rows.

Definition serials_ok (d : Db) : Prop :=
  serial StudentAcademics.id (studentAcademics d) (studentAcademics_id_seq d)
  /\ serial Attendance.id (attendance d) (attendance_id_seq d).

Definition catalog_ok (s : Database) : Prop :=
  serials_ok (store (world s))
  /\ serial User.id (users (store (world s))) (users_id_seq (tables s))
  /\ serial ExamResult.id (examResults (store (world s)))
       (examResults_id_seq (tables s))
  /\ serial ClassLevel.id (classLevels (tables s)) (classLevels_id_seq (tables s))
  /\ serial Subject.id (subjects (tables s)) (subjects_id_seq (tables s)).

(** The same as a predicate of the two halves of the database. *)
Definition ok (d : Db) (tb : Tables) : Prop :=
  catalog_ok {| world := {| store := d; faults := [] |}; tables := tb |}.

(** No failure is due for the next statement. *)
Definition next_runs (w : World) : Prop := head (faults w) <> Some true.

(** The string of a role, as stored and as written in a path. *)
Definition Role_name (r : Role) : string :=
  match r with
  | admin => "admin"
  | teacher => "teacher"
  | student => "student"
  end.

(** The database once a statement that changes nothing has been sent. *)
Definition read_done (s : Database) : Database :=
  {| world := {| store := store (world s); faults := tail (faults (world s)) |};
     tables := tables s |}.

(** The writes of the gateway, as calls. *)
Inductive Write :=
  | CreateUser (insertUser : InsertUser)
  | UpdateUser (id : number) (data : UserPatch)
  | DeleteUser (id : number)
  | PromoteStudent (studentId : number) (newClassId academicYear : Z)
  | UpdateStudentAcademics (id : number) (data : Gateway.AcademicsPatch.t)
  | CreateAttendance (attendanceData : InsertAttendance)
  | UpdateAttendance (id : number) (data : Gateway.AttendancePatch.t)
  | CreateExamResult (result : NewExamResult)
  | CreateClassLevel (data : ClassLevel.values)
  | CreateSubject (subject : Subject.values)
  | DeleteSubject (id : number).

(** The database after one call, whether it resolved or rejected. *)
Definition after (op : Write) (s : Database) : Database :=
  match op with
  | CreateUser insertUser => snd (createUser insertUser s)
  | UpdateUser id data => snd (Task.lift (updateUser id data) s)
  | DeleteUser id => snd (Task.lift (deleteUser id) s)
  | PromoteStudent studentId newClassId academicYear =>
      snd (Task.lift (promoteStudent studentId newClassId academicYear) s)
  | UpdateStudentAcademics id data =>
      snd (Task.lift (Gateway.updateStudentAcademics id data) s)
  | CreateAttendance attendanceData =>
      snd (Task.lift (createAttendance attendanceData) s)
  | UpdateAttendance id data =>
      snd (Task.lift (Gateway.updateAttendance id data) s)
  | CreateExamResult result => snd (createExamResult result s)
  | CreateClassLevel data => snd (createClassLevel data s)
  | CreateSubject subject => snd (createSubject subject s)
  | DeleteSubject id => snd (deleteSubject id s)
  end.

(** The database after a sequence of calls. *)
Definition after_all (ops : list Write) (s : Database) : Database :=
  fold_left (fun s op => after op s) ops s.

End Invariant.

Module Campus.
Import Schema Storage Routes Catalog.

Definition grade5 : ClassLevel.t :=
  {| ClassLevel.id := 5; ClassLevel.name := "Grade 5";
     ClassLevel.description := None; ClassLevel.academicYear := 2024 |}.

Definition grade6 : ClassLevel.t :=
  {| ClassLevel.id := 6; ClassLevel.name := "Grade 6";
     ClassLevel.description := None; ClassLevel.academicYear := 2025 |}.

Definition math : Subject.t :=
  {| Subject.id := 7; Subject.name := "Math"; Subject.description := None;
     Subject.teacherId := Some 2; Subject.classLevelId := 5 |}.

Definition art : Subject.t :=
  {| Subject.id := 8; Subject.name := "Art"; Subject.description := None;
     Subject.teacherId := None; Subject.classLevelId := 6 |}.

Definition catalog : Tables :=
  {| classLevels := [grade5; grade6]; subjects := [math; art];
     classLevels_id_seq := 7; subjects_id_seq := 9;
     examResults_id_seq := 2; users_id_seq := 4 |}.

(** The sample school with its catalog, no failure due. *)
Definition calm : Database := {| world := Sample.calm; tables := catalog |}.

(** The same, with the next statement failing. *)
Definition refusing : Database := {| world := Sample.refusing; tables := catalog |}.

(** Tom asks for the attendance of class 5 on the day Sam was marked. *)
Definition tom_lists_day : Request :=
  Sample.request (Some Sample.tom) ""
    (<["classId" := "5"]> (<["date" := "2024-01-01"]> ∅)) ∅.

(** [new Date] on the one date string of the examples. *)
Definition newDate (s : string) : Date :=
  if bool_decide (s = "2024-01-01") then Time 1704067200000 else InvalidDate.

(** Sam reads his attendance, and renames himself. *)
Definition sam_reads : Request := Sample.request (Some Sample.sam) "" ∅ ∅.

Definition sam_renames : Request :=
  Sample.request (Some Sample.sam) "3" ∅ (<["fullName" := VStr "Samuel"]> ∅).

Definition samuel_data : UserPatch :=
  {| set_username := None; set_role := None; set_fullName := Some "Samuel";
     set_email := None; set_profilePicture := None;
     set_currentClassId := None; set_academicYear := None |}.

(** Tom marks Sam without saying for which subject. *)
Definition tom_marks_no_subject : Request :=
  Sample.request (Some Sample.tom) "" ∅
    (list_to_map
       [("userId", VNum 3); ("classLevelId", VNum 5);
        ("date", VDate (Time 1704153600000)); ("status", VStr "late")]).

(** Tom records a result for Sam; Alice adds a subject to class 6. *)
Definition tom_grades_sam : Request :=
  Sample.request (Some Sample.tom) "" ∅
    (list_to_map
       [("studentId", VNum 3); ("subjectId", VNum 7); ("academicYear", VNum 2024);
        ("term", VNum 2); ("marks", VNum 91); ("grade", VStr "A");
        ("examDate", VStr "2024-01-01")]).

Definition alice_adds_physics : Request :=
  Sample.request (Some Sample.alice) "" ∅
    (<["name" := VStr "Physics"]> (<["classLevelId" := VNum 6]> ∅)).

Definition anonymous (id : string) : Request := Sample.request None id ∅ ∅.

(** Alice renames Sam, and deletes her own account. *)
Definition alice_renames_sam : Request :=
  Sample.request (Some Sample.alice) "3" ∅ (<["fullName" := VStr "Samuel"]> ∅).

Definition alice_deletes_self : Request :=
  Sample.request (Some Sample.alice) "1" ∅ ∅.

(** Alice lists the teachers; Tom reads Sam's records. *)
Definition alice_asks : Request := Sample.request (Some Sample.alice) "" ∅ ∅.

Definition tom_reads_sam : Request := Sample.request (Some Sample.tom) "3" ∅ ∅.

Definition physics : Subject.values :=
  {| Subject.new_name := "Physics"; Subject.new_description := None;
     Subject.new_teacherId := None; Subject.new_classLevelId := 6 |}.

Definition sam_second_term : NewExamResult :=
  {| new_studentId := 3; new_subjectId := 7; new_academicYear := 2024;
     new_term := 2; new_marks := 91; new_grade := "A";
     new_examDate := Time 1704067200000 |}.

Definition grade7 : ClassLevel.values :=
  {| ClassLevel.new_name := "Grade 7"; ClassLevel.new_description := None;
     ClassLevel.new_academicYear := 2026 |}.

Definition kim : InsertUser :=
  {| ins_username := "kim"; ins_password := "hash-k"; ins_role := student;
     ins_fullName := "Kim"; ins_email := "kim@school";
     ins_profilePicture := None; ins_currentClassId := Some 5;
     ins_academicYear := Some 2024 |}.


(** The handler of POST /api/results for a request, when the body has the
    declared types. *)
Definition results_handler (req : Request) : Task.t Api.Reply :=
  default (Api.reply 500 (Api.Msg "")) (Api.post_results newDate req).

End Campus.

(** * Properties *)

(** ** The gateway *)

Module StorageFacts.
Import Schema Storage Spec.

Lemma with_users_same (d : Db) : with_users (users d) d = d.
Proof. destruct d; reflexivity. Qed.

(** A statement either fails and leaves the store alone, or runs. *)
Lemma statement_inv {A} (run : option (Db -> A * Db)) (w : World)
    (o : Outcome A) (w' : World) :
  statement run w = (o, w') ->
  faults w' = tail (faults w)
  /\ ((o = Rejected /\ store w' = store w)
      \/ exists f a, run = Some f /\ head (faults w) <> Some true
                     /\ o = Resolved a /\ f (store w) = (a, store w')).
Proof.
  unfold statement. intros H.
  destruct run as [f|].
  - destruct (head (faults w)) as [[|]|] eqn:Hh.
    + inversion H; subst; simpl. split; [reflexivity|]. left. auto.
    + destruct (f (store w)) as [a d] eqn:Hf. inversion H; subst; simpl.
      split; [reflexivity|]. right. exists f, a. repeat split; congruence.
    + destruct (f (store w)) as [a d] eqn:Hf. inversion H; subst; simpl.
      split; [reflexivity|]. right. exists f, a. repeat split; congruence.
  - inversion H; subst; simpl. split; [reflexivity|]. left. auto.
Qed.

(** A statement that the database accepts, with no failure due, runs. *)
Lemma statement_runs {A} (f : Db -> A * Db) (w : World) :
  head (faults w) <> Some true ->
  statement (Some f) w
  = (Resolved (fst (f (store w))),
     {| store := snd (f (store w)); faults := tail (faults w) |}).
Proof.
  intros H. unfold statement.
  destruct (head (faults w)) as [[|]|]; [congruence| |];
    destruct (f (store w)); reflexivity.
Qed.

Lemma statement_fails {A} (run : option (Db -> A * Db)) (w : World) :
  head (faults w) = Some true ->
  statement run w = (Rejected, {| store := store w; faults := tail (faults w) |}).
Proof.
  intros H. unfold statement. rewrite H. destruct run; reflexivity.
Qed.

Lemma map_no_match (z : Z) (g : User.t -> User.t) (us : list User.t) :
  (forall u, In u us -> User.id u <> z) ->
  map (fun u => if User.id u =? z then g u else u) us = us.
Proof.
  induction us as [|u us IH]; intros H; simpl; [reflexivity|].
  rewrite IH by (intros v Hv; apply H; right; exact Hv).
  destruct (Z.eqb_spec (User.id u) z) as [E|E]; [|reflexivity].
  exfalso. apply (H u); [left; reflexivity | exact E].
Qed.

Lemma filter_no_match (z : Z) (us : list User.t) :
  (forall u, In u us -> User.id u <> z) ->
  List.filter (fun u => User.id u =? z) us = [].
Proof.
  induction us as [|u us IH]; intros H; simpl; [reflexivity|].
  destruct (Z.eqb_spec (User.id u) z) as [E|E].
  - exfalso. apply (H u); [left; reflexivity | exact E].
  - apply IH. intros v Hv. apply H. right. exact Hv.
Qed.

Lemma filter_all_kept (z : Z) (us : list User.t) :
  (forall u, In u us -> User.id u <> z) ->
  List.filter (fun u => negb (User.id u =? z)) us = us.
Proof.
  induction us as [|u us IH]; intros H; simpl; [reflexivity|].
  destruct (Z.eqb_spec (User.id u) z) as [E|E]; simpl.
  - exfalso. apply (H u); [left; reflexivity | exact E].
  - f_equal. apply IH. intros v Hv. apply H. right. exact Hv.
Qed.

(** The update of [users] touches that table only, and in it only the
    columns that are set. *)
Lemma update_users_inv (data : UserPatch) (id : number)
    (f : Db -> list User.t * Db) (d : Db) :
  update_users data id = Some f ->
  exists z, id = Int z
    /\ snd (f d)
       = with_users
           (map (fun u => if User.id u =? z then set_user data u else u) (users d)) d.
Proof.
  unfold update_users. destruct id as [|z]; simpl; [discriminate|].
  destruct (no_values data); [discriminate|].
  intros H. inversion H; subst. exists z. split; reflexivity.
Qed.

(** [updateUser] leaves the store alone or rewrites the rows of one id. *)
Lemma updateUser_store (id : number) (data : UserPatch) (w : World)
    (o : Outcome (option User.t)) (w' : World) :
  updateUser id data w = (o, w') ->
  store w' = store w
  \/ exists z, id = Int z
       /\ store w'
          = with_users
              (map (fun u => if User.id u =? z then set_user data u else u)
                 (users (store w))) (store w).
Proof.
  unfold updateUser, bind. intros H.
  destruct (statement (update_users data id) w) as [o1 w1] eqn:Hs.
  apply statement_inv in Hs. destruct Hs as [_ [[Ho Hst]|(f & a & Hr & _ & Ho & Hf)]].
  - subst o1. inversion H; subst. left. exact Hst.
  - subst o1. unfold ret in H. inversion H; subst.
    destruct (update_users_inv data id f (store w) Hr) as (z & Hid & Hsnd).
    right. exists z. split; [exact Hid|]. rewrite <- Hsnd, Hf. reflexivity.
Qed.

(** The two writes of a promotion, statement by statement: the outcome of
    the call by which of them fails. *)
Lemma promoteStudent_run (z c y : Z) (d : Db) (fs : list bool) :
  promoteStudent (Int z) c y {| store := d; faults := fs |}
  = if fails 0 fs
    then (Rejected, {| store := d; faults := tail fs |})
    else if fails 1 fs
    then (Rejected, {| store := after_update z c y d; faults := tail (tail fs) |})
    else (Resolved tt,
          {| store := after_promotion z c y d; faults := tail (tail fs) |}).
Proof.
  destruct fs as [|[|] [|[|] fs]]; reflexivity.
Qed.

Lemma promoteStudent_NaN (c y : Z) (w : World) :
  promoteStudent NaN c y w
  = (Rejected, {| store := store w; faults := tail (faults w) |}).
Proof.
  unfold promoteStudent, bind, statement. simpl.
  destruct (head (faults w)) as [[|]|]; reflexivity.
Qed.

Lemma in_users_promoted (z c y : Z) (u : User.t) (us : list User.t) :
  In u us -> User.id u = z -> In (promoted c y u) (users_promoted z c y us).
Proof.
  intros Hin Hid. unfold users_promoted.
  apply in_map_iff. exists u. split; [|exact Hin].
  rewrite <- Hid, Z.eqb_refl. reflexivity.
Qed.

(** C2: a promotion that succeeds has set the student's [currentClassId] and
    [academicYear] to the new values, leaving the other columns and the other
    users as they were, and has appended exactly one [student_academics] row,
    for that student, the new class and year, with status "pending". *)
Theorem promoteStudent_success_effect (z c y : Z) (u : User.t) (w w' : World) :
  In u (users (store w)) -> User.id u = z -> User.role u = student ->
  promoteStudent (Int z) c y w = (Resolved tt, w') ->
  In (promoted c y u) (users (store w'))
  /\ users (store w') = users_promoted z c y (users (store w))
  /\ exists r : StudentAcademics.t,
       studentAcademics (store w') = studentAcademics (store w) ++ [r]
       /\ StudentAcademics.studentId r = z
       /\ StudentAcademics.classLevelId r = c
       /\ StudentAcademics.academicYear r = y
       /\ StudentAcademics.promotionStatus r = Some pending.
Proof.
  intros Hin Hid _ Hrun. destruct w as [d fs].
  rewrite promoteStudent_run in Hrun.
  destruct (fails 0 fs); [discriminate|].
  destruct (fails 1 fs); [discriminate|].
  inversion Hrun; subst w'; simpl.
  split; [apply in_users_promoted; assumption|].
  split; [reflexivity|].
  eexists. split; [reflexivity|]. simpl. auto.
Qed.

Lemma deleteUser_inv (id : number) (w : World) (o : Outcome unit) (w' : World) :
  deleteUser id w = (o, w') ->
  (o = Rejected /\ store w' = store w)
  \/ exists z, id = Int z /\ o = Resolved tt
       /\ store w'
          = with_users (List.filter (fun u => negb (User.id u =? z)) (users (store w)))
              (store w).
Proof.
  unfold deleteUser. intros H. apply statement_inv in H.
  destruct H as [_ [H|(f & a & Hr & _ & Ho & Hf)]]; [left; exact H|].
  right. destruct id as [|z]; simpl in Hr; [discriminate|].
  exists z. inversion Hr; subst f. simpl in Hf. inversion Hf; subst.
  auto.
Qed.

(** C8: deleting a user does not cascade. Whatever the id and whether the
    statement succeeds, [attendance] and [exam_results] are exactly as before,
    so the rows that refer to the user (as [userId], [markedBy] or
    [studentId]) are still stored; and when the delete succeeds no user of
    that id is left. *)
Theorem deleteUser_no_cascade (id : number) (w : World) :
  let w' := snd (deleteUser id w) in
  attendance (store w') = attendance (store w)
  /\ examResults (store w') = examResults (store w)
  /\ (forall z a, id = Int z -> In a (attendance (store w)) ->
        Attendance.userId a = z \/ Attendance.markedBy a = z ->
        In a (attendance (store w')))
  /\ (forall z e, id = Int z -> In e (examResults (store w)) ->
        ExamResult.studentId e = z -> In e (examResults (store w')))
  /\ (forall z, id = Int z -> fst (deleteUser id w) = Resolved tt ->
        forall u, In u (users (store w')) -> User.id u <> z).
Proof.
  intros w'. subst w'.
  destruct (deleteUser id w) as [o w'] eqn:H. simpl.
  apply deleteUser_inv in H.
  assert (Ha : attendance (store w') = attendance (store w)).
  { destruct H as [[_ ->]|(z & _ & _ & ->)]; reflexivity. }
  assert (He : examResults (store w') = examResults (store w)).
  { destruct H as [[_ ->]|(z & _ & _ & ->)]; reflexivity. }
  split; [exact Ha|]. split; [exact He|].
  split; [intros z a _ Hin _; rewrite Ha; exact Hin|].
  split; [intros z e _ Hin _; rewrite He; exact Hin|].
  intros z Hid Ho u Hu.
  destruct H as [[-> _]|(z' & Hid' & _ & Hst)]; [discriminate|].
  rewrite Hid in Hid'. inversion Hid'; subst z'.
  rewrite Hst in Hu. simpl in Hu. apply filter_In in Hu.
  destruct Hu as [_ Hu]. apply negb_true_iff in Hu.
  apply Z.eqb_neq in Hu. exact Hu.
Qed.

(** C1 as stated fails: with the second statement failing, Sam's promotion
    leaves his new class and year in [users] and no row in
    [student_academics], which is neither both writes nor none. *)
Lemma promotion_atomic_counterexample :
  ~ promotion_atomic 3 6 2025 Sample.second_fails.
Proof.
  unfold promotion_atomic, Sample.second_fails. rewrite promoteStudent_run.
  simpl.
  intros [[_ H]|[H _]]; discriminate H.
Qed.

Lemma promoteStudent_success_effect_witness :
  In (promoted 6 2025 Sample.sam)
    (users (store (snd (promoteStudent (Int 3) 6 2025 Sample.calm)))).
Proof.
  refine (proj1 (promoteStudent_success_effect 3 6 2025 Sample.sam Sample.calm
                   (snd (promoteStudent (Int 3) 6 2025 Sample.calm)) _ _ _ _)).
  - simpl. auto.
  - reflexivity.
  - reflexivity.
  - reflexivity.
Defined.

Lemma deleteUser_no_cascade_witness :
  (In Sample.sam_present
     (attendance (store (snd (deleteUser (Int 3) Sample.refusing))))
   /\ In Sample.sam_result
        (examResults (store (snd (deleteUser (Int 3) Sample.refusing)))))
  /\ (attendance (store (snd (deleteUser (Int 1) Sample.calm)))
      = [Sample.sam_present]
      /\ forall u, In u (users (store (snd (deleteUser (Int 1) Sample.calm)))) ->
                   User.id u <> 1).
Proof.
  split.
  - destruct (deleteUser_no_cascade (Int 3) Sample.refusing)
      as (_ & _ & Ha & He & _).
    split.
    + apply (Ha 3); [reflexivity | simpl; auto | left; reflexivity].
    + apply (He 3); [reflexivity | simpl; auto | reflexivity].
  - destruct (deleteUser_no_cascade (Int 1) Sample.calm) as (Ha & _ & _ & _ & Hu).
    split; [exact Ha | apply (Hu 1); reflexivity].
Defined.

End StorageFacts.

(** ** The handlers *)

Module RoutesFacts.
Import Schema Storage Routes Spec StorageFacts.

Lemma respond_inv (code : Z) (p : Payload) (w : World)
    (o : Outcome Response) (w' : World) :
  respond code p w = (o, w') ->
  o = Resolved {| status := code; payload := p |} /\ w' = w.
Proof. unfold respond, ret. intros H. inversion H. auto. Qed.

(** Rewriting rows without touching a column leaves that column as it was. *)
Lemma map_rewrite_rows {B} (col : User.t -> B) (g : User.t -> User.t) (z : Z)
    (us : list User.t) :
  (forall u, col (g u) = col u) ->
  map col (map (fun u => if User.id u =? z then g u else u) us) = map col us.
Proof.
  intros Hg. rewrite map_map. apply map_ext. intros u.
  destruct (User.id u =? z); [apply Hg | reflexivity].
Qed.

Section Handlers.

Variable parseInt : string -> number.
Variable newDate : string -> Date.
Variable isEmail : string -> bool.

(** The schema of PATCH never yields a value for a column outside
    [fullName], [email], [profilePicture] and [role]. *)
Lemma updateSchema_columns (callerRole : Role) (input : gmap string jsval)
    (data : UserPatch) :
  updateSchema isEmail callerRole input = Some data ->
  set_username data = None
  /\ set_currentClassId data = None
  /\ set_academicYear data = None.
Proof.
  unfold updateSchema. intros H.
  destruct (z_optional z_string_min_1 (input !! "fullName")); [|discriminate].
  destruct (z_optional (z_email isEmail) (input !! "email")); [|discriminate].
  destruct (z_optional z_string (input !! "profilePicture")); [|discriminate].
  simpl in H.
  destruct (if Role_eqb callerRole admin then _ else _); [|discriminate].
  simpl in H. inversion H; subst; simpl. auto.
Qed.

(** For a caller who is not an admin the schema admits no [role] key. *)
Lemma updateSchema_role_guard (callerRole : Role) (input : gmap string jsval) :
  callerRole <> admin ->
  match updateSchema isEmail callerRole input with
  | Some data => set_role data = None /\ input !! "role" = None
  | None => True
  end.
Proof.
  intros Hr. unfold updateSchema.
  destruct (z_optional z_string_min_1 (input !! "fullName")); [|exact I].
  destruct (z_optional (z_email isEmail) (input !! "email")); [|exact I].
  destruct (z_optional z_string (input !! "profilePicture")); [|exact I].
  simpl.
  assert (Hn : Role_eqb callerRole admin = false)
    by (destruct callerRole; [congruence | reflexivity | reflexivity]).
  rewrite Hn.
  destruct (input !! "role"); simpl; [exact I | auto].
Qed.

Lemma updateSchema_rejects_role (callerRole : Role) (input : gmap string jsval) :
  callerRole <> admin -> is_Some (input !! "role") ->
  updateSchema isEmail callerRole input = None.
Proof.
  intros Hr [v Hv].
  pose proof (updateSchema_role_guard callerRole input Hr) as H.
  destruct (updateSchema isEmail callerRole input); [|reflexivity].
  destruct H as [_ H]. congruence.
Qed.

(** PATCH answers without touching anything, or has run [updateUser] on the
    validated data. *)
Lemma patch_user_inv (req : Request) (w : World) (o : Outcome Response)
    (w' : World) :
  patch_user parseInt isEmail req w = (o, w') ->
  w' = w
  \/ exists caller data o',
       user req = Some caller
       /\ updateSchema isEmail (User.role caller) (body req) = Some data
       /\ updateUser (parseInt (params_id req)) data w = (o', w').
Proof.
  unfold patch_user. intros H.
  destruct (user req) as [caller|] eqn:Hu;
    [|apply respond_inv in H; left; apply H].
  destruct (negb (is_admin caller) && _);
    [apply respond_inv in H; left; apply H|].
  destruct (updateSchema isEmail (User.role caller) (body req)) as [data|] eqn:Hd;
    [|apply respond_inv in H; left; apply H].
  right. exists caller, data.
  unfold try_catch, bind in H.
  destruct (updateUser (parseInt (params_id req)) data w) as [[u|] w1] eqn:Hup.
  - apply respond_inv in H. destruct H as [_ ->]. eauto.
  - apply respond_inv in H. destruct H as [_ ->]. eauto.
Qed.

(** A column that the validated data does not set is the same in every row
    after PATCH. *)
Lemma patch_user_frame {B} (col : User.t -> B) (req : Request) (w : World) :
  (forall caller data u,
      user req = Some caller ->
      updateSchema isEmail (User.role caller) (body req) = Some data ->
      col (set_user data u) = col u) ->
  map col (users (store (snd (patch_user parseInt isEmail req w))))
  = map col (users (store w)).
Proof.
  intros Hcol.
  destruct (patch_user parseInt isEmail req w) as [o w'] eqn:H. simpl.
  apply patch_user_inv in H.
  destruct H as [->|(caller & data & o' & Hu & Hd & Hup)]; [reflexivity|].
  apply updateUser_store in Hup.
  destruct Hup as [->|(z & _ & ->)]; [reflexivity|]. simpl.
  apply map_rewrite_rows. intros u. apply (Hcol caller data u Hu Hd).
Qed.

(** C6: whoever is not an admin cannot change a stored role through
    PATCH /api/users/:id, whatever the body and the target id: every row has
    the role it had. On the caller's own id a body that names [role] is
    refused with 400 and nothing is written; a body that omits it leaves
    [role] out of the update. *)
Theorem patch_user_role_unchanged (req : Request) (caller : User.t) (w : World) :
  user req = Some caller -> User.role caller <> admin ->
  map (fun u => (User.id u, User.role u))
    (users (store (snd (patch_user parseInt isEmail req w))))
  = map (fun u => (User.id u, User.role u)) (users (store w))
  /\ (parseInt (params_id req) = Int (User.id caller) ->
      is_Some (body req !! "role") ->
      patch_user parseInt isEmail req w
      = (Resolved {| status := 400; payload := ZodError |}, w)).
Proof.
  intros Hu Hr. split.
  - apply patch_user_frame. intros c data u Hc Hd.
    assert (c = caller) by congruence. subst c.
    pose proof (updateSchema_role_guard (User.role caller) (body req) Hr) as G.
    rewrite Hd in G. destruct G as [G _].
    simpl. rewrite G. reflexivity.
  - intros Hid Hrole. unfold patch_user. rewrite Hu, Hid. simpl.
    rewrite Z.eqb_refl, andb_false_r.
    rewrite (updateSchema_rejects_role _ _ Hr Hrole). reflexivity.
Qed.

(** C10: no PATCH /api/users/:id changes a stored password, whoever calls
    and whatever the body holds: the validated data carries no password and
    the update writes none. *)
Theorem patch_user_password_unchanged (req : Request) (w : World) :
  map (fun u => (User.id u, User.password u))
    (users (store (snd (patch_user parseInt isEmail req w))))
  = map (fun u => (User.id u, User.password u)) (users (store w)).
Proof.
  apply patch_user_frame. intros caller data u _ _. reflexivity.
Qed.

(** C5: a student who calls DELETE /api/users/:id is answered 403 Forbidden
    whatever the target id, and the store is left as it was. *)
Theorem delete_user_student_forbidden (req : Request) (caller : User.t)
    (w : World) :
  user req = Some caller -> User.role caller = student ->
  delete_user parseInt req w
  = (Resolved {| status := 403; payload := Text "Forbidden" |}, w).
Proof.
  intros Hu Hr. unfold delete_user, requireAdmin, is_admin.
  rewrite Hu, Hr. reflexivity.
Qed.

(** C9: a teacher or an admin who calls GET /api/attendance without
    [classId], without [date], or without both is answered 200 with the empty
    list, and no query is sent. *)
Theorem get_attendance_missing_query (req : Request) (caller : User.t)
    (w : World) :
  user req = Some caller ->
  User.role caller = teacher \/ User.role caller = admin ->
  query req !! "classId" = None \/ query req !! "date" = None ->
  get_attendance parseInt newDate req w
  = (Resolved {| status := 200; payload := JsonAttendanceList [] |}, w).
Proof.
  intros Hu Hr Hq. unfold get_attendance. rewrite Hu.
  assert (Hs : Role_eqb (User.role caller) student = false)
    by (destruct Hr as [-> | ->]; reflexivity).
  rewrite Hs.
  assert (Ht : truthy (query req !! "classId") && truthy (query req !! "date")
               = false).
  { destruct Hq as [-> | ->]; simpl; [reflexivity | apply andb_false_r]. }
  rewrite Ht. reflexivity.
Qed.

(** Whatever the body says, the validated record is marked by the id put
    in by the handler, and its date is a valid one. *)
Lemma insertAttendanceSchema_markedBy (input : gmap string jsval) (z : Z)
    (data : InsertAttendance) :
  insertAttendanceSchema (<["markedBy" := VNum z]> input) = Some data ->
  ins_markedBy data = z /\ exists ms, ins_date data = Time ms.
Proof.
  unfold insertAttendanceSchema. rewrite lookup_insert_eq. intros H.
  destruct (z_required z_number (_ !! "userId")); [|discriminate].
  destruct (z_required z_number (_ !! "subjectId")); [|discriminate].
  destruct (z_required z_number (_ !! "classLevelId")); [|discriminate].
  simpl in H.
  destruct (z_required z_date (_ !! "date")) as [dt|] eqn:Hd; [|discriminate].
  destruct (z_required z_enum_status (_ !! "status")); [|discriminate].
  simpl in H.
  destruct (z_optional (z_nullable z_string) (_ !! "notes")); [|discriminate].
  simpl in H. inversion H; subst; simpl. split; [reflexivity|].
  unfold z_required in Hd.
  destruct (_ !! "date") as [[| | | |[|ms]|]|]; simpl in Hd; try discriminate.
  inversion Hd. eauto.
Qed.

Lemma createAttendance_inv (data : InsertAttendance) (ms : Z) (w : World)
    (o : Outcome (option Attendance.t)) (w' : World) :
  ins_date data = Time ms ->
  createAttendance data w = (o, w') ->
  (o = Rejected /\ store w' = store w)
  \/ (o = Resolved (Some (new_attendance (attendance_id_seq (store w)) ms data))
      /\ attendance (store w')
         = attendance (store w)
           ++ [new_attendance (attendance_id_seq (store w)) ms data]).
Proof.
  intros Hd. unfold createAttendance, bind, statement. rewrite Hd. simpl.
  intros H.
  destruct (head (faults w)) as [[|]|]; inversion H; subst; simpl; auto.
Qed.

(** C7: POST /api/attendance by a teacher or an admin creates the record
    with [markedBy] forced to the caller. A body that gives [userId],
    [subjectId], [classLevelId], a date and one of the three statuses, with
    [notes] a string, null or left out, and whatever it gives or does not
    give as [markedBy], is answered 201 when the insert runs, with exactly
    one record appended: that of the body's fields, the next id of the
    sequence, and the caller's id as [markedBy]. And in every case, whatever
    the body and whether or not the insert runs, either nothing is stored
    (and an answer, if any, is 400) or one record is stored, answered with
    201, whose [markedBy] is the caller's id. *)
Theorem post_attendance_markedBy (req : Request) (caller : User.t) (w : World) :
  user req = Some caller ->
  User.role caller = teacher \/ User.role caller = admin ->
  (forall (userId subjectId classLevelId ms : Z) (st : AttendanceStatus),
      body req !! "userId" = Some (VNum userId) ->
      body req !! "subjectId" = Some (VNum subjectId) ->
      body req !! "classLevelId" = Some (VNum classLevelId) ->
      body req !! "date" = Some (VDate (Time ms)) ->
      body req !! "status" = Some (VStr (AttendanceStatus_name st)) ->
      body req !! "notes" = None \/ body req !! "notes" = Some VNull
      \/ (exists n, body req !! "notes" = Some (VStr n)) ->
      head (faults w) <> Some true ->
      post_attendance req w
      = (Resolved
           {| status := 201;
              payload := JsonAttendance (Some
                {| Attendance.id := attendance_id_seq (store w);
                   Attendance.userId := userId;
                   Attendance.subjectId := subjectId;
                   Attendance.classLevelId := classLevelId;
                   Attendance.date := ms;
                   Attendance.status := st;
                   Attendance.markedBy := User.id caller;
                   Attendance.notes := notes_given (body req !! "notes");
                   Attendance.notificationSent := Some false |}) |},
         {| store :=
              {| users := users (store w);
                 studentAcademics := studentAcademics (store w);
                 attendance :=
                   attendance (store w)
                   ++ [{| Attendance.id := attendance_id_seq (store w);
                          Attendance.userId := userId;
                          Attendance.subjectId := subjectId;
                          Attendance.classLevelId := classLevelId;
                          Attendance.date := ms;
                          Attendance.status := st;
                          Attendance.markedBy := User.id caller;
                          Attendance.notes := notes_given (body req !! "notes");
                          Attendance.notificationSent := Some false |}];
                 examResults := examResults (store w);
                 studentAcademics_id_seq := studentAcademics_id_seq (store w);
                 attendance_id_seq := attendance_id_seq (store w) + 1 |};
            faults := tail (faults w) |}))
  /\ ((attendance (store (snd (post_attendance req w))) = attendance (store w)
       /\ forall r, fst (post_attendance req w) = Resolved r -> status r = 400)
      \/ exists record : Attendance.t,
           attendance (store (snd (post_attendance req w)))
           = attendance (store w) ++ [record]
           /\ fst (post_attendance req w)
              = Resolved {| status := 201; payload := JsonAttendance (Some record) |}
           /\ Attendance.markedBy record = User.id caller).
Proof.
  intros Hu Hr. unfold post_attendance, requireTeacher, is_admin. rewrite Hu.
  assert (Hg : negb (Role_eqb (User.role caller) teacher)
               && negb (Role_eqb (User.role caller) admin) = false)
    by (destruct Hr as [-> | ->]; reflexivity).
  rewrite Hg. split.
  - intros userId subjectId classLevelId ms st H1 H2 H3 H4 H5 H6 Hf.
    unfold insertAttendanceSchema.
    rewrite lookup_insert_eq, !lookup_insert_ne by discriminate.
    rewrite H1, H2, H3, H4, H5. cbn -[z_enum_status].
    assert (Hst : z_enum_status (VStr (AttendanceStatus_name st)) = Some st)
      by (destruct st; reflexivity).
    rewrite Hst. cbn.
    assert (Hn : z_optional (z_nullable z_string) (body req !! "notes")
                 = Some (Some (notes_given (body req !! "notes")))
                 \/ z_optional (z_nullable z_string) (body req !! "notes")
                    = Some None /\ notes_given (body req !! "notes") = None).
    { destruct H6 as [->|[->|[n ->]]]; cbn; auto. }
    destruct Hn as [-> | [-> Hnone]]; cbn; unfold bind, createAttendance, bind;
      cbn [ins_date sql_timestamp]; rewrite statement_runs by exact Hf; cbn;
      rewrite ?Hnone; reflexivity.
  - destruct (insertAttendanceSchema _) as [data|] eqn:Hd.
    + apply insertAttendanceSchema_markedBy in Hd. destruct Hd as [Hm [ms Hdate]].
      unfold bind.
      destruct (createAttendance data w) as [o1 w1] eqn:Hc.
      apply (createAttendance_inv data ms) in Hc; [|exact Hdate].
      destruct Hc as [[-> Hst]|[-> Hat]].
      * left. simpl. rewrite Hst. split; [reflexivity|]. intros r Hx. discriminate.
      * right. eexists. simpl. split; [exact Hat|]. split; [reflexivity|].
        simpl. exact Hm.
    + left. simpl. split; [reflexivity|]. intros r Hx. inversion Hx. reflexivity.
Qed.

(** C3 (as the code behaves): for an id that no stored user has and with no
    failure due, [updateUser] resolves to no row and [deleteUser] resolves;
    the store is unchanged, and PATCH and DELETE /api/users/:id answer 200
    where 404 is due. *)
Theorem absent_id_answered_200 (req : Request) (caller : User.t) (z : Z)
    (data : UserPatch) (w : World) :
  user req = Some caller -> User.role caller = admin ->
  parseInt (params_id req) = Int z ->
  (forall u, In u (users (store w)) -> User.id u <> z) ->
  head (faults w) <> Some true ->
  updateSchema isEmail admin (body req) = Some data ->
  no_values data = false ->
  updateUser (Int z) data w
  = (Resolved None, {| store := store w; faults := tail (faults w) |})
  /\ deleteUser (Int z) w
     = (Resolved tt, {| store := store w; faults := tail (faults w) |})
  /\ patch_user parseInt isEmail req w
     = (Resolved {| status := 200; payload := JsonUser None |},
        {| store := store w; faults := tail (faults w) |})
  /\ delete_user parseInt req w
     = (Resolved {| status := 200; payload := Text "OK" |},
        {| store := store w; faults := tail (faults w) |}).
Proof.
  intros Hu Hr Hid Habs Hf Hd Hnv.
  assert (Hup : updateUser (Int z) data w
                = (Resolved None, {| store := store w; faults := tail (faults w) |})).
  { unfold updateUser, update_users, bind. cbn [sql_int]. rewrite Hnv.
    rewrite statement_runs by exact Hf. cbn [fst snd ret head].
    rewrite (map_no_match z _ _ Habs), (filter_no_match z _ Habs), with_users_same.
    reflexivity. }
  assert (Hdel : deleteUser (Int z) w
                 = (Resolved tt, {| store := store w; faults := tail (faults w) |})).
  { unfold deleteUser. cbn [sql_int]. rewrite statement_runs by exact Hf.
    cbn [fst snd].
    rewrite (filter_all_kept z _ Habs), with_users_same. reflexivity. }
  split; [exact Hup|]. split; [exact Hdel|]. split.
  - unfold patch_user, is_admin. rewrite Hu, Hr, Hid. simpl. rewrite Hd.
    unfold try_catch, bind. rewrite Hup. reflexivity.
  - unfold delete_user, requireAdmin, is_admin. rewrite Hu, Hr, Hid. simpl.
    unfold try_catch, bind. rewrite Hdel. reflexivity.
Qed.

(** C1 (amended): a promotion is two statements without a transaction. If
    the first fails nothing is written; if the second fails after the first
    succeeded the user's new class and year stay written and no
    [student_academics] row exists for them; only if neither fails are both
    written. The call rejects in the two failing cases, and the endpoint then
    answers 500: it answers 200 only when both writes are in the store. *)
Theorem promotion_two_independent_writes (req : Request) (caller : User.t)
    (z c y : Z) (d : Db) (fs : list bool) :
  user req = Some caller -> User.role caller = admin ->
  parseInt (params_id req) = Int z ->
  promote_args (body req) = Some (c, y) ->
  promoteStudent (Int z) c y {| store := d; faults := fs |}
  = (if fails 0 fs
     then (Rejected, {| store := d; faults := tail fs |})
     else if fails 1 fs
     then (Rejected, {| store := after_update z c y d; faults := tail (tail fs) |})
     else (Resolved tt,
           {| store := after_promotion z c y d; faults := tail (tail fs) |}))
  /\ exists handler,
       post_promote parseInt req = Some handler
       /\ handler {| store := d; faults := fs |}
          = (if fails 0 fs
             then (Resolved {| status := 500;
                               payload := Message "Failed to promote student" |},
                   {| store := d; faults := tail fs |})
             else if fails 1 fs
             then (Resolved {| status := 500;
                               payload := Message "Failed to promote student" |},
                   {| store := after_update z c y d; faults := tail (tail fs) |})
             else (Resolved {| status := 200; payload := Text "OK" |},
                   {| store := after_promotion z c y d;
                      faults := tail (tail fs) |})).
Proof.
  intros Hu Hr Hid Hargs. split; [apply promoteStudent_run|].
  unfold post_promote, admits_admin, is_admin. rewrite Hu, Hr, Hargs. simpl.
  eexists. split; [reflexivity|].
  unfold requireAdmin, is_admin. rewrite Hu, Hr, Hid. simpl.
  unfold try_catch, bind. rewrite promoteStudent_run.
  destruct (fails 0 fs); [reflexivity|].
  destruct (fails 1 fs); reflexivity.
Qed.

End Handlers.

Lemma promotion_two_independent_writes_witness :
  promoteStudent (Int 3) 6 2025 Sample.second_fails
  = (Rejected, {| store := after_update 3 6 2025 Sample.school; faults := [] |})
  /\ exists handler,
       post_promote Sample.parseInt Sample.promote_sam = Some handler
       /\ handler Sample.second_fails
          = (Resolved {| status := 500;
                         payload := Message "Failed to promote student" |},
             {| store := after_update 3 6 2025 Sample.school; faults := [] |}).
Proof.
  exact (promotion_two_independent_writes Sample.parseInt Sample.promote_sam
           Sample.alice 3 6 2025 Sample.school [false; true]
           eq_refl eq_refl eq_refl eq_refl).
Defined.

Lemma nobody_is_99 (u : User.t) : In u (users Sample.school) -> User.id u <> 99.
Proof.
  simpl. intros [<-|[<-|[<-|[]]]]; discriminate.
Defined.

Lemma absent_id_answered_200_witness :
  patch_user Sample.parseInt Sample.isEmail Sample.rename_99 Sample.calm
  = (Resolved {| status := 200; payload := JsonUser None |}, Sample.calm)
  /\ delete_user Sample.parseInt Sample.delete_99 Sample.calm
     = (Resolved {| status := 200; payload := Text "OK" |}, Sample.calm).
Proof.
  split.
  - refine (proj1 (proj2 (proj2
      (absent_id_answered_200 Sample.parseInt Sample.isEmail Sample.rename_99
         Sample.alice 99 Sample.rename_data Sample.calm
         eq_refl eq_refl eq_refl nobody_is_99 _ eq_refl eq_refl)))).
    discriminate.
  - refine (proj2 (proj2 (proj2
      (absent_id_answered_200 Sample.parseInt Sample.isEmail Sample.rename_99
         Sample.alice 99 Sample.rename_data Sample.calm
         eq_refl eq_refl eq_refl nobody_is_99 _ eq_refl eq_refl)))).
    discriminate.
Defined.

Lemma delete_user_student_forbidden_witness :
  delete_user Sample.parseInt Sample.sam_deletes_alice Sample.calm
  = (Resolved {| status := 403; payload := Text "Forbidden" |}, Sample.calm).
Proof.
  exact (delete_user_student_forbidden Sample.parseInt Sample.sam_deletes_alice
           Sample.sam Sample.calm eq_refl eq_refl).
Defined.

Lemma sam_is_no_admin : User.role Sample.sam <> admin.
Proof. discriminate. Defined.

Lemma patch_user_role_unchanged_witness :
  patch_user Sample.parseInt Sample.isEmail Sample.sam_wants_admin Sample.calm
  = (Resolved {| status := 400; payload := ZodError |}, Sample.calm).
Proof.
  refine (proj2 (patch_user_role_unchanged Sample.parseInt Sample.isEmail
                   Sample.sam_wants_admin Sample.sam Sample.calm
                   eq_refl sam_is_no_admin) eq_refl _).
  eexists. reflexivity.
Defined.

(** An admin, by contrast, does change a role. *)
Example admin_changes_role :
  map (fun u => (User.id u, User.role u))
    (users (store (snd (patch_user Sample.parseInt Sample.isEmail
                          Sample.alice_makes_sam_teacher Sample.calm))))
  = [(1, admin); (2, teacher); (3, teacher)].
Proof. reflexivity. Qed.

Lemma tom_marks_sam_runs : head (faults Sample.calm) <> Some true.
Proof. discriminate. Defined.

Lemma post_attendance_markedBy_witness :
  body Sample.tom_marks_sam !! "markedBy" = Some (VNum 999)
  /\ fst (post_attendance Sample.tom_marks_sam Sample.calm)
     = Resolved
         {| status := 201;
            payload := JsonAttendance (Some
              {| Attendance.id := 2; Attendance.userId := 3;
                 Attendance.subjectId := 7; Attendance.classLevelId := 5;
                 Attendance.date := 1704153600000; Attendance.status := late;
                 Attendance.markedBy := 2; Attendance.notes := None;
                 Attendance.notificationSent := Some false |}) |}.
Proof.
  split; [reflexivity|].
  exact (f_equal fst
           (proj1 (post_attendance_markedBy Sample.tom_marks_sam Sample.tom
                     Sample.calm eq_refl (or_introl eq_refl))
              3 7 5 1704153600000 late eq_refl eq_refl eq_refl eq_refl eq_refl
              (or_introl eq_refl) tom_marks_sam_runs)).
Defined.

(** The record that Tom's request stores is marked by Tom (id 2), not by the
    999 of the body. *)
Example tom_marks_sam_stored :
  post_attendance Sample.tom_marks_sam Sample.calm
  = (Resolved
       {| status := 201;
          payload := JsonAttendance (Some
            {| Attendance.id := 2; Attendance.userId := 3;
               Attendance.subjectId := 7; Attendance.classLevelId := 5;
               Attendance.date := 1704153600000; Attendance.status := late;
               Attendance.markedBy := 2; Attendance.notes := None;
               Attendance.notificationSent := Some false |}) |},
     snd (post_attendance Sample.tom_marks_sam Sample.calm))
  /\ length (attendance (store (snd (post_attendance Sample.tom_marks_sam Sample.calm))))
     = 2%nat.
Proof. split; reflexivity. Qed.

Lemma get_attendance_missing_query_witness :
  get_attendance Sample.parseInt Sample.newDate Sample.tom_lists_class Sample.calm
  = (Resolved {| status := 200; payload := JsonAttendanceList [] |}, Sample.calm).
Proof.
  exact (get_attendance_missing_query Sample.parseInt Sample.newDate
           Sample.tom_lists_class Sample.tom Sample.calm
           eq_refl (or_introl eq_refl) (or_intror eq_refl)).
Defined.

End RoutesFacts.

(** ** The statistics card *)

Module StatsFacts.
Import Stats.

Lemma fold_days_acc (ms : list MonthStats) (a : Z) :
  fold_left
    (fun acc month => acc + presentDays month + absentDays month + lateDays month)
    ms a
  = a + sumZ (map presentDays ms) + sumZ (map absentDays ms)
      + sumZ (map lateDays ms).
Proof.
  revert a. induction ms as [|m ms IH]; intros a; simpl.
  - lia.
  - rewrite IH. lia.
Qed.

Lemma fold_present_acc (ms : list MonthStats) (a : Z) :
  fold_left (fun acc month => acc + presentDays month) ms a
  = a + sumZ (map presentDays ms).
Proof.
  revert a. induction ms as [|m ms IH]; intros a; simpl.
  - lia.
  - rewrite IH. lia.
Qed.

Lemma overallAttendance_sums (ms : list MonthStats) :
  overallAttendance (Some ms)
  = attendance_percentage (sumZ (map presentDays ms))
      (sumZ (map absentDays ms)) (sumZ (map lateDays ms)).
Proof.
  unfold overallAttendance, attendance_percentage, totalDays, totalPresent,
    reduce_or_0.
  rewrite fold_days_acc, fold_present_acc, !Z.add_0_l. reflexivity.
Qed.

(** C4: the attendance percentage of the statistics card is
    present / (present + absent + late) * 100 over the summed day counts, in
    binary64 arithmetic, and is 0 when that denominator is 0; for 18 present,
    2 absent and 0 late days it is exactly 90, and for all-zero days it
    is 0. *)
Theorem overallAttendance_percentage :
  (forall ms : list MonthStats,
      overallAttendance (Some ms)
      = attendance_percentage (sumZ (map presentDays ms))
          (sumZ (map absentDays ms)) (sumZ (map lateDays ms)))
  /\ (forall ms : list MonthStats,
         sumZ (map presentDays ms) + sumZ (map absentDays ms)
         + sumZ (map lateDays ms) = 0 ->
         overallAttendance (Some ms) = 0%float)
  /\ overallAttendance
       (Some [{| presentDays := 18; absentDays := 2; lateDays := 0 |}])
     = 90%float
  /\ overallAttendance
       (Some [{| presentDays := 0; absentDays := 0; lateDays := 0 |}])
     = 0%float.
Proof.
  split; [exact overallAttendance_sums|]. split; [|split].
  - intros ms H. rewrite overallAttendance_sums. unfold attendance_percentage.
    rewrite H. reflexivity.
  - vm_compute. reflexivity.
  - vm_compute. reflexivity.
Qed.

Lemma overallAttendance_percentage_witness :
  overallAttendance
    (Some [{| presentDays := 0; absentDays := 0; lateDays := 0 |};
           {| presentDays := 0; absentDays := 0; lateDays := 0 |}])
  = 0%float.
Proof.
  apply (proj1 (proj2 overallAttendance_percentage)). reflexivity.
Defined.

(** Over two months the counts are summed before dividing: 18 of 20 days
    and 12 of 20 days give 75. *)
Example overallAttendance_two_months :
  overallAttendance
    (Some [{| presentDays := 18; absentDays := 2; lateDays := 0 |};
           {| presentDays := 12; absentDays := 5; lateDays := 3 |}])
  = 75%float.
Proof. vm_compute. reflexivity. Qed.

End StatsFacts.

(** ** Reading and recording attendance *)

Module AttendanceFacts.
Import Schema Storage Routes Spec StorageFacts RoutesFacts Invariant.

Lemma getAttendanceByUser_run (z : Z) (w : World) :
  next_runs w ->
  getAttendanceByUser (Int z) w
  = (Resolved (List.filter (fun a => Attendance.userId a =? z) (attendance (store w))),
     {| store := store w; faults := tail (faults w) |}).
Proof.
  intros H. unfold getAttendanceByUser. cbn [sql_int].
  rewrite statement_runs by exact H. reflexivity.
Qed.

Lemma getAttendanceByClass_run (c t : Z) (w : World) :
  next_runs w ->
  getAttendanceByClass (Int c) (Time t) w
  = (Resolved
       (List.filter
          (fun a => (Attendance.classLevelId a =? c) && (Attendance.date a =? t))
          (attendance (store w))),
     {| store := store w; faults := tail (faults w) |}).
Proof.
  intros H. unfold getAttendanceByClass. cbn [sql_int sql_timestamp].
  rewrite statement_runs by exact H. reflexivity.
Qed.

(** What the schema of an attendance record takes from each key. *)
Lemma insertAttendanceSchema_fields (input : gmap string jsval)
    (data : InsertAttendance) :
  insertAttendanceSchema input = Some data ->
  input !! "userId" = Some (VNum (ins_userId data))
  /\ input !! "subjectId" = Some (VNum (ins_subjectId data))
  /\ input !! "classLevelId" = Some (VNum (ins_classLevelId data))
  /\ input !! "date" = Some (VDate (ins_date data))
  /\ (exists s, input !! "status" = Some (VStr s)
                /\ z_enum_status (VStr s) = Some (ins_status data))
  /\ input !! "markedBy" = Some (VNum (ins_markedBy data)).
Proof.
  unfold insertAttendanceSchema, z_required. intros H.
  destruct (input !! "userId") as [[| |userId| | |]|]; try discriminate H.
  destruct (input !! "subjectId") as [[| |subjectId| | |]|]; try discriminate H.
  destruct (input !! "classLevelId") as [[| |classLevelId| | |]|];
    try discriminate H.
  destruct (input !! "date") as [[| | | |[|ms]|]|]; try discriminate H.
  destruct (input !! "status") as [[| | |s| |]|]; try discriminate H.
  cbn -[z_enum_status] in H.
  destruct (z_enum_status (VStr s)) as [st|] eqn:Hst; [|discriminate H].
  cbn in H.
  destruct (input !! "markedBy") as [[| |markedBy| | |]|]; try discriminate H.
  cbn in H.
  destruct (z_optional (z_nullable z_string) (input !! "notes"));
    [|discriminate H].
  cbn in H. inversion H; subst; cbn.
  do 4 (split; [reflexivity|]). split; [|reflexivity].
  exists s. split; [reflexivity | exact Hst].
Qed.

(** A request that POST /api/attendance answers with 201 has stored the
    record it returns, built from the validated body. *)
Lemma post_attendance_created (req : Request) (caller : User.t) (w w' : World)
    (r : Response) :
  user req = Some caller ->
  post_attendance req w = (Resolved r, w') ->
  status r = 201 ->
  exists data ms,
    insertAttendanceSchema (<["markedBy" := VNum (User.id caller)]> (body req))
    = Some data
    /\ r = {| status := 201;
              payload := JsonAttendance
                (Some (new_attendance (attendance_id_seq (store w)) ms data)) |}
    /\ attendance (store w')
       = attendance (store w)
         ++ [new_attendance (attendance_id_seq (store w)) ms data].
Proof.
  intros Hu H Hs. unfold post_attendance, requireTeacher in H. rewrite Hu in H.
  destruct (negb (Role_eqb (User.role caller) teacher) && negb (is_admin caller)).
  { apply respond_inv in H. destruct H as [H _]. inversion H; subst r.
    simpl in Hs. discriminate. }
  destruct (insertAttendanceSchema _) as [data|] eqn:Hd.
  - destruct (insertAttendanceSchema_markedBy _ _ _ Hd) as [_ [ms Hdate]].
    unfold bind in H.
    destruct (createAttendance data w) as [o1 w1] eqn:Hc.
    apply (createAttendance_inv data ms) in Hc; [|exact Hdate].
    destruct Hc as [[-> _]|[-> Hat]]; [discriminate|].
    apply respond_inv in H. destruct H as [H ->]. inversion H; subst r.
    exists data, ms. auto.
  - apply respond_inv in H. destruct H as [H _]. inversion H; subst r.
    simpl in Hs. discriminate.
Qed.

Section Handlers.

Variable parseInt : string -> number.
Variable newDate : string -> Date.

Lemma get_attendance_student (req : Request) (caller : User.t) (w : World) :
  user req = Some caller -> User.role caller = student -> next_runs w ->
  get_attendance parseInt newDate req w
  = (Resolved
       {| status := 200;
          payload := JsonAttendanceList
            (List.filter (fun a => Attendance.userId a =? User.id caller)
               (attendance (store w))) |},
     {| store := store w; faults := tail (faults w) |}).
Proof.
  intros Hu Hr Hf. unfold get_attendance. rewrite Hu, Hr. cbn [Role_eqb].
  unfold bind. rewrite getAttendanceByUser_run by exact Hf. reflexivity.
Qed.

(** X1: a student who calls GET /api/attendance is answered 200 with
    exactly the stored records whose [userId] is the caller's id, whatever
    the query string says; nothing is written. *)
Theorem student_lists_own_attendance (req : Request) (caller : User.t)
    (w : World) :
  user req = Some caller -> User.role caller = student -> next_runs w ->
  exists rows,
    get_attendance parseInt newDate req w
    = (Resolved {| status := 200; payload := JsonAttendanceList rows |},
       {| store := store w; faults := tail (faults w) |})
    /\ forall a, In a rows
         <-> In a (attendance (store w)) /\ Attendance.userId a = User.id caller.
Proof.
  intros Hu Hr Hf. eexists. split.
  - exact (get_attendance_student req caller w Hu Hr Hf).
  - intros a. rewrite filter_In, Z.eqb_eq. reflexivity.
Qed.

(** X2: a teacher or an admin who gives both [classId] and [date] is
    answered 200 with exactly the records of that class whose timestamp is
    that date. *)
Theorem staff_lists_class_attendance (req : Request) (caller : User.t)
    (classId date : string) (c t : Z) (w : World) :
  user req = Some caller ->
  User.role caller = teacher \/ User.role caller = admin ->
  query req !! "classId" = Some classId -> classId <> "" ->
  query req !! "date" = Some date -> date <> "" ->
  parseInt classId = Int c -> newDate date = Time t ->
  next_runs w ->
  exists rows,
    get_attendance parseInt newDate req w
    = (Resolved {| status := 200; payload := JsonAttendanceList rows |},
       {| store := store w; faults := tail (faults w) |})
    /\ forall a, In a rows
         <-> In a (attendance (store w))
             /\ Attendance.classLevelId a = c /\ Attendance.date a = t.
Proof.
  intros Hu Hr Hc Hcne Hd Hdne Hp Hn Hf. eexists. split.
  - unfold get_attendance. rewrite Hu.
    assert (Hs : Role_eqb (User.role caller) student = false)
      by (destruct Hr as [-> | ->]; reflexivity).
    rewrite Hs, Hc, Hd. unfold truthy.
    rewrite !bool_decide_eq_false_2 by assumption. simpl.
    rewrite Hp, Hn. unfold bind.
    rewrite getAttendanceByClass_run by exact Hf. reflexivity.
  - intros a. rewrite filter_In, andb_true_iff, !Z.eqb_eq. reflexivity.
Qed.

(** X3: once a teacher or an admin has been answered 201 for a record of a
    student, that student's GET /api/attendance lists the student's earlier
    records followed by the new one, which carries the student's id and the
    marker's id. *)
Theorem marked_attendance_is_listed (req req' : Request) (marker pupil : User.t)
    (w w' : World) (r : Response) :
  user req = Some marker ->
  post_attendance req w = (Resolved r, w') -> status r = 201 ->
  body req !! "userId" = Some (VNum (User.id pupil)) ->
  user req' = Some pupil -> User.role pupil = student -> next_runs w' ->
  exists record,
    payload r = JsonAttendance (Some record)
    /\ Attendance.userId record = User.id pupil
    /\ Attendance.markedBy record = User.id marker
    /\ get_attendance parseInt newDate req' w'
       = (Resolved
            {| status := 200;
               payload := JsonAttendanceList
                 (List.filter (fun a => Attendance.userId a =? User.id pupil)
                    (attendance (store w)) ++ [record]) |},
          {| store := store w'; faults := tail (faults w') |}).
Proof.
  intros Hm Hpost Hs Hbody Hu Hr Hf.
  destruct (post_attendance_created req marker w w' r Hm Hpost Hs)
    as (data & ms & Hd & -> & Hat).
  destruct (insertAttendanceSchema_fields _ _ Hd) as (Huid & _ & _ & _ & _ & Hmk).
  rewrite lookup_insert_ne in Huid by discriminate.
  rewrite lookup_insert_eq in Hmk.
  assert (Hpupil : ins_userId data = User.id pupil) by congruence.
  assert (Hmarker : ins_markedBy data = User.id marker) by congruence.
  eexists. split; [reflexivity|]. split; [exact Hpupil|]. split; [exact Hmarker|].
  rewrite (get_attendance_student req' pupil w' Hu Hr Hf), Hat.
  rewrite List.filter_app. simpl. rewrite Hpupil, Z.eqb_refl. reflexivity.
Qed.

End Handlers.

(** X4: POST /api/attendance refuses with 400, storing nothing, a body
    that lacks one of [userId], [subjectId], [classLevelId], [date] and
    [status], and a body whose [status] is a string other than "present",
    "absent" and "late". *)
Theorem post_attendance_refuses_bad_body (req : Request) (caller : User.t)
    (w : World) :
  user req = Some caller ->
  User.role caller = teacher \/ User.role caller = admin ->
  (exists key, In key ["userId"; "subjectId"; "classLevelId"; "date"; "status"]
               /\ body req !! key = None)
  \/ (exists s, body req !! "status" = Some (VStr s)
                /\ s <> "present" /\ s <> "absent" /\ s <> "late") ->
  post_attendance req w = (Resolved {| status := 400; payload := ZodError |}, w).
Proof.
  intros Hu Hr Hbad. unfold post_attendance, requireTeacher, is_admin.
  rewrite Hu.
  assert (Hg : negb (Role_eqb (User.role caller) teacher)
               && negb (Role_eqb (User.role caller) admin) = false)
    by (destruct Hr as [-> | ->]; reflexivity).
  rewrite Hg.
  destruct (insertAttendanceSchema _) as [data|] eqn:Hd; [|reflexivity].
  exfalso.
  destruct (insertAttendanceSchema_fields _ _ Hd)
    as (H1 & H2 & H3 & H4 & (s & H5 & Hst) & _).
  rewrite lookup_insert_ne in H1, H2, H3, H4, H5 by discriminate.
  destruct Hbad as [(key & Hin & Hnone)|(s' & Hs' & Hp & Ha & Hl)].
  - simpl in Hin.
    destruct Hin as [<-|[<-|[<-|[<-|[<-|[]]]]]]; congruence.
  - assert (s = s') by congruence. subst s'. simpl in Hst.
    repeat case_bool_decide; congruence.
Qed.

Lemma student_lists_own_attendance_witness :
  exists rows,
    get_attendance Sample.parseInt Campus.newDate Campus.sam_reads Sample.calm
    = (Resolved {| status := 200; payload := JsonAttendanceList rows |},
       {| store := store Sample.calm; faults := tail (faults Sample.calm) |})
    /\ forall a, In a rows
         <-> In a (attendance (store Sample.calm))
             /\ Attendance.userId a = User.id Sample.sam.
Proof.
  refine (student_lists_own_attendance Sample.parseInt Campus.newDate
            Campus.sam_reads Sample.sam Sample.calm eq_refl eq_refl _).
  discriminate.
Defined.

Lemma staff_lists_class_attendance_witness :
  exists rows,
    get_attendance Sample.parseInt Campus.newDate Campus.tom_lists_day Sample.calm
    = (Resolved {| status := 200; payload := JsonAttendanceList rows |},
       {| store := store Sample.calm; faults := tail (faults Sample.calm) |})
    /\ forall a, In a rows
         <-> In a (attendance (store Sample.calm))
             /\ Attendance.classLevelId a = 5
             /\ Attendance.date a = 1704067200000.
Proof.
  refine (staff_lists_class_attendance Sample.parseInt Campus.newDate
            Campus.tom_lists_day Sample.tom "5" "2024-01-01" 5 1704067200000
            Sample.calm eq_refl (or_introl eq_refl) eq_refl _ eq_refl _
            eq_refl eq_refl _); discriminate.
Defined.

Lemma marked_attendance_is_listed_witness :
  exists record,
    payload (Build_Response 201 (JsonAttendance (Some
      (new_attendance 2 1704153600000
         {| ins_userId := 3; ins_subjectId := 7; ins_classLevelId := 5;
            ins_date := Time 1704153600000; ins_status := late;
            ins_markedBy := 2; ins_notes := None |}))))
    = JsonAttendance (Some record)
    /\ Attendance.userId record = 3
    /\ Attendance.markedBy record = 2
    /\ get_attendance Sample.parseInt Campus.newDate Campus.sam_reads
         (snd (post_attendance Sample.tom_marks_sam Sample.calm))
       = (Resolved
            {| status := 200;
               payload := JsonAttendanceList ([Sample.sam_present] ++ [record]) |},
          {| store := store (snd (post_attendance Sample.tom_marks_sam Sample.calm));
             faults := [] |}).
Proof.
  refine (marked_attendance_is_listed Sample.parseInt Campus.newDate
            Sample.tom_marks_sam Campus.sam_reads Sample.tom Sample.sam
            Sample.calm (snd (post_attendance Sample.tom_marks_sam Sample.calm))
            _ eq_refl eq_refl eq_refl eq_refl eq_refl eq_refl _).
  discriminate.
Defined.

Lemma post_attendance_refuses_bad_body_witness :
  post_attendance Campus.tom_marks_no_subject Sample.calm
  = (Resolved {| status := 400; payload := ZodError |}, Sample.calm).
Proof.
  refine (post_attendance_refuses_bad_body Campus.tom_marks_no_subject
            Sample.tom Sample.calm eq_refl (or_introl eq_refl) _).
  left. exists "subjectId". split; [simpl; auto | reflexivity].
Defined.

End AttendanceFacts.

(** ** Reading, updating and deleting users *)

Module UsersFacts.
Import Schema Storage Routes Gateway Spec StorageFacts RoutesFacts Invariant.

Lemma head_map {A B} (g : A -> B) (l : list A) : head (map g l) = g <$> head l.
Proof. destruct l; reflexivity. Qed.

Lemma filter_rewritten_rows (g : User.t -> User.t) (z : Z) (us : list User.t) :
  (forall u, User.id (g u) = User.id u) ->
  List.filter (fun u => User.id u =? z)
    (map (fun u => if User.id u =? z then g u else u) us)
  = map g (List.filter (fun u => User.id u =? z) us).
Proof.
  intros Hg. induction us as [|u us IH]; [reflexivity|]. simpl.
  destruct (User.id u =? z) eqn:E; simpl.
  - rewrite Hg, E, IH. reflexivity.
  - rewrite E. exact IH.
Qed.

Lemma getUser_run (z : Z) (w : World) :
  next_runs w ->
  getUser (Int z) w
  = (Resolved (head (List.filter (fun u => User.id u =? z) (users (store w)))),
     {| store := store w; faults := tail (faults w) |}).
Proof.
  intros H. unfold getUser, bind, select. cbn [sql_int].
  rewrite statement_runs by exact H. reflexivity.
Qed.

Lemma updateUser_run (z : Z) (data : UserPatch) (w : World) :
  next_runs w -> no_values data = false ->
  updateUser (Int z) data w
  = (Resolved
       (set_user data
        <$> head (List.filter (fun u => User.id u =? z) (users (store w)))),
     {| store :=
          with_users
            (map (fun u => if User.id u =? z then set_user data u else u)
               (users (store w))) (store w);
        faults := tail (faults w) |}).
Proof.
  intros Hf Hnv. unfold updateUser, update_users, bind. cbn [sql_int].
  rewrite Hnv, statement_runs by exact Hf. cbn [fst snd ret].
  rewrite filter_rewritten_rows by reflexivity. rewrite head_map. reflexivity.
Qed.

(** The row that a resolved [updateUser] returns is the first row of that
    id in the store it leaves. *)
Lemma updateUser_resolved (z : Z) (data : UserPatch) (w w' : World)
    (r : option User.t) :
  updateUser (Int z) data w = (Resolved r, w') ->
  r = head (List.filter (fun u => User.id u =? z) (users (store w'))).
Proof.
  unfold updateUser, bind. intros H.
  destruct (statement (update_users data (Int z)) w) as [o1 w1] eqn:Hs.
  apply statement_inv in Hs.
  destruct Hs as [_ [[-> _]|(f & a & Hr & _ & -> & Hf)]]; [discriminate|].
  unfold ret in H. inversion H; subst. clear H.
  unfold update_users in Hr. cbn [sql_int] in Hr.
  destruct (no_values data); [discriminate|].
  inversion Hr; subst f. cbn in Hf. inversion Hf. reflexivity.
Qed.

Lemma deleteUser_run (z : Z) (w : World) :
  next_runs w ->
  deleteUser (Int z) w
  = (Resolved tt,
     {| store :=
          with_users (List.filter (fun u => negb (User.id u =? z)) (users (store w)))
            (store w);
        faults := tail (faults w) |}).
Proof.
  intros H. unfold deleteUser. cbn [sql_int].
  rewrite statement_runs by exact H. reflexivity.
Qed.

Lemma filter_after_delete (z : Z) (us : list User.t) :
  List.filter (fun u => User.id u =? z)
    (List.filter (fun u => negb (User.id u =? z)) us) = [].
Proof.
  induction us as [|u us IH]; [reflexivity|]. simpl.
  destruct (User.id u =? z) eqn:E; simpl; [exact IH|]. rewrite E. exact IH.
Qed.

(** X5: a read after a write sees the write. After [updateUser] resolves,
    [getUser] on the same id resolves to the very row that the update
    returned (undefined when it returned none); after [deleteUser] resolves,
    [getUser] on that id resolves to undefined. *)
Theorem getUser_after_write :
  (forall (z : Z) (data : UserPatch) (w w' : World) (r : option User.t),
      updateUser (Int z) data w = (Resolved r, w') -> next_runs w' ->
      getUser (Int z) w'
      = (Resolved r, {| store := store w'; faults := tail (faults w') |}))
  /\ (forall (z : Z) (w w' : World),
         deleteUser (Int z) w = (Resolved tt, w') -> next_runs w' ->
         getUser (Int z) w'
         = (Resolved None, {| store := store w'; faults := tail (faults w') |})).
Proof.
  split.
  - intros z data w w' r Hup Hf. rewrite getUser_run by exact Hf.
    rewrite (updateUser_resolved z data w w' r Hup). reflexivity.
  - intros z w w' Hdel Hf. rewrite getUser_run by exact Hf.
    apply deleteUser_inv in Hdel.
    destruct Hdel as [[Hx _]|(z' & Hz & _ & Hst)]; [discriminate|].
    inversion Hz; subst z'. rewrite Hst. simpl.
    rewrite filter_after_delete. reflexivity.
Qed.

Section Handlers.

Variable parseInt : string -> number.
Variable isEmail : string -> bool.

(** What the validated data holds for each key of the body. *)
Lemma updateSchema_fields (callerRole : Role) (input : gmap string jsval)
    (data : UserPatch) :
  updateSchema isEmail callerRole input = Some data ->
  z_optional z_string_min_1 (input !! "fullName") = Some (set_fullName data)
  /\ z_optional (z_email isEmail) (input !! "email") = Some (set_email data)
  /\ exists p, z_optional z_string (input !! "profilePicture") = Some p
               /\ set_profilePicture data = Some <$> p.
Proof.
  unfold updateSchema. intros H.
  destruct (z_optional z_string_min_1 (input !! "fullName")); [|discriminate].
  destruct (z_optional (z_email isEmail) (input !! "email")); [|discriminate].
  destruct (z_optional z_string (input !! "profilePicture")) as [p|];
    [|discriminate].
  cbn in H.
  destruct (if Role_eqb callerRole admin then _ else _); [|discriminate].
  cbn in H. inversion H; subst; cbn.
  split; [reflexivity|]. split; [reflexivity|].
  exists p. split; reflexivity.
Qed.

(** X6: a caller who is not an admin and sends a valid, non-empty PATCH for
    the caller's own id is answered 200 with the stored row as rewritten:
    [fullName], [email] and [profilePicture] are those of the body where it
    gives them and the old ones otherwise, and [id], [username], [password],
    [role], [currentClassId] and [academicYear] are as before. *)
Theorem patch_own_profile (req : Request) (caller u0 : User.t)
    (data : UserPatch) (w : World) :
  user req = Some caller -> User.role caller <> admin ->
  parseInt (params_id req) = Int (User.id caller) ->
  updateSchema isEmail (User.role caller) (body req) = Some data ->
  no_values data = false ->
  next_runs w ->
  head (List.filter (fun u => User.id u =? User.id caller) (users (store w)))
  = Some u0 ->
  exists u1,
    fst (patch_user parseInt isEmail req w)
    = Resolved {| status := 200; payload := JsonUser (Some u1) |}
    /\ In u1 (users (store (snd (patch_user parseInt isEmail req w))))
    /\ User.id u1 = User.id u0
    /\ User.username u1 = User.username u0
    /\ User.password u1 = User.password u0
    /\ User.role u1 = User.role u0
    /\ User.currentClassId u1 = User.currentClassId u0
    /\ User.academicYear u1 = User.academicYear u0
    /\ User.fullName u1
       = match body req !! "fullName" with
         | Some (VStr n) => n
         | _ => User.fullName u0
         end
    /\ User.email u1
       = match body req !! "email" with
         | Some (VStr e) => e
         | _ => User.email u0
         end
    /\ User.profilePicture u1
       = match body req !! "profilePicture" with
         | Some (VStr p) => Some p
         | _ => User.profilePicture u0
         end.
Proof.
  intros Hu Hr Hid Hd Hnv Hf Hhead.
  exists (set_user data u0).
  assert (Hrun : patch_user parseInt isEmail req w
                 = (Resolved {| status := 200;
                                payload := JsonUser (Some (set_user data u0)) |},
                    {| store :=
                         with_users
                           (map (fun u => if User.id u =? User.id caller
                                          then set_user data u else u)
                              (users (store w))) (store w);
                       faults := tail (faults w) |})).
  { unfold patch_user. rewrite Hu, Hid. cbn [number_neqb].
    rewrite Z.eqb_refl, andb_false_r, Hd.
    unfold try_catch, bind. rewrite updateUser_run by assumption.
    rewrite Hhead. reflexivity. }
  rewrite Hrun. cbn [fst snd store users with_users].
  pose proof (updateSchema_role_guard isEmail (User.role caller) (body req) Hr) as G.
  rewrite Hd in G. destruct G as [Grole _].
  destruct (updateSchema_columns isEmail _ _ _ Hd) as (Gu & Gc & Gy).
  destruct (updateSchema_fields _ _ _ Hd) as (Gn & Ge & pic & Gp & Gpic).
  assert (Hin0 : In u0 (List.filter (fun u => User.id u =? User.id caller)
                          (users (store w)))).
  { destruct (List.filter _ (users (store w))) as [|x l]; [discriminate|].
    inversion Hhead; subst. left. reflexivity. }
  apply filter_In in Hin0. destruct Hin0 as [Hin0 Hid0].
  split; [reflexivity|]. split.
  { apply in_map_iff. exists u0. rewrite Hid0. auto. }
  cbn. rewrite Gu, Grole, Gc, Gy. cbn.
  do 6 (split; [reflexivity|]).
  split; [|split].
  - destruct (body req !! "fullName") as [[| | |n| |]|]; cbn in Gn;
      try discriminate Gn;
      try (injection Gn as G; rewrite <- G; reflexivity).
    destruct (bool_decide (n = "")); cbn in Gn; [discriminate|].
    injection Gn as G. rewrite <- G. reflexivity.
  - destruct (body req !! "email") as [[| | |e| |]|]; cbn in Ge;
      try discriminate Ge;
      try (injection Ge as G; rewrite <- G; reflexivity).
    destruct (isEmail e); cbn in Ge; [|discriminate].
    injection Ge as G. rewrite <- G. reflexivity.
  - rewrite Gpic.
    destruct (body req !! "profilePicture") as [[| | |p| |]|]; cbn in Gp;
      try discriminate Gp; injection Gp as G; rewrite <- G; reflexivity.
Qed.

(** X7: when the statement fails, PATCH and DELETE /api/users/:id answer
    404 "User not found", whether or not the user is stored; the store is
    as it was. *)
Theorem failure_answered_not_found (req : Request) (caller : User.t)
    (data : UserPatch) (w : World) :
  user req = Some caller -> User.role caller = admin ->
  updateSchema isEmail admin (body req) = Some data ->
  head (faults w) = Some true ->
  patch_user parseInt isEmail req w
  = (Resolved {| status := 404; payload := Message "User not found" |},
     {| store := store w; faults := tail (faults w) |})
  /\ delete_user parseInt req w
     = (Resolved {| status := 404; payload := Message "User not found" |},
        {| store := store w; faults := tail (faults w) |}).
Proof.
  intros Hu Hr Hd Hf. split.
  - unfold patch_user, is_admin. rewrite Hu, Hr. cbn. rewrite Hd.
    unfold try_catch, bind, updateUser, bind.
    rewrite statement_fails by exact Hf. reflexivity.
  - unfold delete_user, requireAdmin, is_admin. rewrite Hu, Hr. cbn.
    unfold try_catch, bind, deleteUser.
    rewrite statement_fails by exact Hf. reflexivity.
Qed.

(** X8: an admin's DELETE /api/users/:id, with no failure due, is answered
    200 and leaves exactly the users of a different id, in their order; the
    other tables and the sequences are untouched. *)
Theorem admin_deletes_user (req : Request) (caller : User.t) (z : Z) (w : World) :
  user req = Some caller -> User.role caller = admin ->
  parseInt (params_id req) = Int z -> next_runs w ->
  delete_user parseInt req w
  = (Resolved {| status := 200; payload := Text "OK" |},
     {| store :=
          with_users (List.filter (fun u => negb (User.id u =? z)) (users (store w)))
            (store w);
        faults := tail (faults w) |})
  /\ forall u,
       In u (users (store (snd (delete_user parseInt req w))))
       <-> In u (users (store w)) /\ User.id u <> z.
Proof.
  intros Hu Hr Hid Hf.
  assert (Hrun : delete_user parseInt req w
                 = (Resolved {| status := 200; payload := Text "OK" |},
                    {| store :=
                         with_users
                           (List.filter (fun u => negb (User.id u =? z))
                              (users (store w))) (store w);
                       faults := tail (faults w) |})).
  { unfold delete_user, requireAdmin, is_admin. rewrite Hu, Hr, Hid. cbn.
    unfold try_catch, bind. rewrite deleteUser_run by exact Hf. reflexivity. }
  split; [exact Hrun|]. intros u. rewrite Hrun. cbn.
  rewrite filter_In, negb_true_iff, Z.eqb_neq. reflexivity.
Qed.

End Handlers.

Lemma getUser_after_write_witness :
  getUser (Int 3) (snd (updateUser (Int 3) Campus.samuel_data Sample.calm))
  = (Resolved (Some (set_user Campus.samuel_data Sample.sam)),
     {| store := store (snd (updateUser (Int 3) Campus.samuel_data Sample.calm));
        faults := [] |})
  /\ getUser (Int 1) (snd (deleteUser (Int 1) Sample.calm))
     = (Resolved None,
        {| store := store (snd (deleteUser (Int 1) Sample.calm)); faults := [] |}).
Proof.
  split.
  - refine (proj1 getUser_after_write 3 Campus.samuel_data Sample.calm
              (snd (updateUser (Int 3) Campus.samuel_data Sample.calm))
              (Some (set_user Campus.samuel_data Sample.sam)) eq_refl _).
    discriminate.
  - refine (proj2 getUser_after_write 1 Sample.calm
              (snd (deleteUser (Int 1) Sample.calm)) eq_refl _).
    discriminate.
Defined.

Lemma calm_runs : next_runs Sample.calm.
Proof. discriminate. Defined.

Lemma patch_own_profile_witness :
  exists u1,
    fst (patch_user Sample.parseInt Sample.isEmail Campus.sam_renames Sample.calm)
    = Resolved {| status := 200; payload := JsonUser (Some u1) |}
    /\ User.fullName u1 = "Samuel"
    /\ User.email u1 = User.email Sample.sam
    /\ User.password u1 = User.password Sample.sam.
Proof.
  destruct (patch_own_profile Sample.parseInt Sample.isEmail Campus.sam_renames
              Sample.sam Sample.sam Campus.samuel_data Sample.calm
              eq_refl sam_is_no_admin eq_refl eq_refl eq_refl calm_runs eq_refl)
    as (u1 & H1 & _ & _ & _ & Hp & _ & _ & _ & Hn & He & _).
  exists u1. auto.
Defined.

Lemma failure_answered_not_found_witness :
  patch_user Sample.parseInt Sample.isEmail Campus.alice_renames_sam Sample.refusing
  = (Resolved {| status := 404; payload := Message "User not found" |}, Sample.calm)
  /\ delete_user Sample.parseInt Campus.alice_renames_sam Sample.refusing
     = (Resolved {| status := 404; payload := Message "User not found" |},
        Sample.calm).
Proof.
  exact (failure_answered_not_found Sample.parseInt Sample.isEmail
           Campus.alice_renames_sam Sample.alice Campus.samuel_data
           Sample.refusing eq_refl eq_refl eq_refl eq_refl).
Defined.

Lemma admin_deletes_user_witness :
  delete_user Sample.parseInt Campus.alice_deletes_self Sample.calm
  = (Resolved {| status := 200; payload := Text "OK" |},
     {| store := with_users [Sample.tom; Sample.sam] Sample.school; faults := [] |}).
Proof.
  exact (proj1 (admin_deletes_user Sample.parseInt Campus.alice_deletes_self
                  Sample.alice 1 Sample.calm eq_refl eq_refl eq_refl calm_runs)).
Defined.

End UsersFacts.

(** ** Promotion, read back *)

Module PromotionFacts.
Import Schema Storage Gateway Spec StorageFacts Invariant UsersFacts.

Lemma getStudentAcademics_run (z : Z) (w : World) :
  next_runs w ->
  getStudentAcademics (Int z) w
  = (Resolved
       (List.filter (fun r => StudentAcademics.studentId r =? z)
          (studentAcademics (store w))),
     {| store := store w; faults := tail (faults w) |}).
Proof.
  intros H. unfold getStudentAcademics, select. cbn [sql_int].
  rewrite statement_runs by exact H. reflexivity.
Qed.

Lemma getCurrentAcademicYear_run (z : Z) (w : World) :
  next_runs w ->
  getCurrentAcademicYear (Int z) w
  = (Resolved
       (User.academicYear
        <$> head (List.filter (fun u => User.id u =? z) (users (store w)))),
     {| store := store w; faults := tail (faults w) |}).
Proof.
  intros H. unfold getCurrentAcademicYear, bind, select. cbn [sql_int].
  rewrite statement_runs by exact H. reflexivity.
Qed.

Lemma promoteStudent_resolved (z c y : Z) (w w' : World) :
  promoteStudent (Int z) c y w = (Resolved tt, w') ->
  store w' = after_promotion z c y (store w).
Proof.
  destruct w as [d fs]. rewrite promoteStudent_run.
  destruct (fails 0 fs); [discriminate|].
  destruct (fails 1 fs); [discriminate|].
  intros H. inversion H. reflexivity.
Qed.

Lemma first_of_id (z : Z) (us : list User.t) :
  (exists u, In u us /\ User.id u = z) ->
  exists u0, head (List.filter (fun u => User.id u =? z) us) = Some u0.
Proof.
  intros (u & Hin & Hid).
  assert (H : In u (List.filter (fun u => User.id u =? z) us))
    by (apply filter_In; split; [exact Hin | apply Z.eqb_eq; exact Hid]).
  destruct (List.filter _ us) as [|u0 l]; [destruct H | eauto].
Qed.

(** X9: what a promotion wrote is what the reads return. After
    [promoteStudent] resolves, [getStudentAcademics] of that student gives
    the student's earlier records followed by the new pending one, and, if
    the student is stored, [getCurrentAcademicYear] gives the new year. *)
Theorem promotion_is_read_back (z c y : Z) (w w' : World) :
  promoteStudent (Int z) c y w = (Resolved tt, w') -> next_runs w' ->
  getStudentAcademics (Int z) w'
  = (Resolved
       (List.filter (fun r => StudentAcademics.studentId r =? z)
          (studentAcademics (store w))
        ++ [new_academics (studentAcademics_id_seq (store w)) z c y]),
     {| store := store w'; faults := tail (faults w') |})
  /\ ((exists u, In u (users (store w)) /\ User.id u = z) ->
      getCurrentAcademicYear (Int z) w'
      = (Resolved (Some (Some y)),
         {| store := store w'; faults := tail (faults w') |})).
Proof.
  intros Hp Hf. apply promoteStudent_resolved in Hp. split.
  - rewrite getStudentAcademics_run by exact Hf. rewrite Hp. cbn.
    rewrite List.filter_app. cbn. rewrite Z.eqb_refl. reflexivity.
  - intros Hex. rewrite getCurrentAcademicYear_run by exact Hf. rewrite Hp. cbn.
    unfold users_promoted. rewrite filter_rewritten_rows by reflexivity.
    rewrite head_map. destruct (first_of_id z _ Hex) as [u0 ->]. reflexivity.
Qed.

Lemma users_promoted_twice (z c y : Z) (us : list User.t) :
  users_promoted z c y (users_promoted z c y us) = users_promoted z c y us.
Proof.
  unfold users_promoted. rewrite map_map. apply map_ext. intros u.
  destruct (User.id u =? z) eqn:E; cbn; rewrite E; reflexivity.
Qed.

(** X10: a promotion is not idempotent. Two successive calls with the same
    arguments leave [users] as one call does, but append two
    [student_academics] records for the same student, class and year, with
    consecutive ids. *)
Theorem repeated_promotion_duplicates (z c y : Z) (d : Db) :
  let once := snd (promoteStudent (Int z) c y {| store := d; faults := [] |}) in
  let twice := snd (promoteStudent (Int z) c y once) in
  users (store twice) = users (store once)
  /\ studentAcademics (store twice)
     = studentAcademics d
       ++ [new_academics (studentAcademics_id_seq d) z c y;
           new_academics (studentAcademics_id_seq d + 1) z c y].
Proof.
  cbn zeta. rewrite promoteStudent_run. cbn [fails nth snd tail].
  rewrite promoteStudent_run. cbn [fails nth snd tail store].
  split.
  - cbn. apply users_promoted_twice.
  - cbn. rewrite <- app_assoc. reflexivity.
Qed.

Lemma promotion_is_read_back_witness :
  getStudentAcademics (Int 3) (snd (promoteStudent (Int 3) 6 2025 Sample.calm))
  = (Resolved [new_academics 1 3 6 2025],
     {| store := after_promotion 3 6 2025 Sample.school; faults := [] |})
  /\ getCurrentAcademicYear (Int 3) (snd (promoteStudent (Int 3) 6 2025 Sample.calm))
     = (Resolved (Some (Some 2025)),
        {| store := after_promotion 3 6 2025 Sample.school; faults := [] |}).
Proof.
  destruct (promotion_is_read_back 3 6 2025 Sample.calm
              (snd (promoteStudent (Int 3) 6 2025 Sample.calm)) eq_refl calm_runs)
    as [Ha Hy].
  split; [exact Ha|]. apply Hy. exists Sample.sam. split; [|reflexivity].
  simpl. auto.
Defined.

End PromotionFacts.

(** ** Serial identifiers *)

Module SerialFacts.
Import Schema Storage Gateway Catalog Spec StorageFacts Invariant.

Lemma serial_ids {R} (rid : R -> Z) (rows rows' : list R) (seq : Z) :
  map rid rows' = map rid rows -> serial rid rows seq -> serial rid rows' seq.
Proof.
  unfold serial. intros E [Hn Hf]. rewrite E. split; [exact Hn|].
  apply (proj1 (List.Forall_map rid (fun i => i < seq) rows')). rewrite E.
  apply (proj2 (List.Forall_map rid (fun i => i < seq) rows)). exact Hf.
Qed.

Lemma serial_rewrite {R} (rid : R -> Z) (g : R -> R) (c : R -> bool)
    (rows : list R) (seq : Z) :
  (forall r, rid (g r) = rid r) ->
  serial rid rows seq ->
  serial rid (map (fun r => if c r then g r else r) rows) seq.
Proof.
  intros Hg. apply serial_ids. rewrite map_map. apply map_ext.
  intros r. destruct (c r); [apply Hg | reflexivity].
Qed.

Lemma serial_filter {R} (rid : R -> Z) (c : R -> bool) (rows : list R) (seq : Z) :
  serial rid rows seq -> serial rid (List.filter c rows) seq.
Proof.
  unfold serial. intros [Hn Hf]. split.
  - induction rows as [|r rows IH]; [exact Hn|]. simpl in *.
    inversion Hn as [|? ? Hnotin Hn']; subst. inversion Hf; subst.
    destruct (c r); [|apply IH; assumption].
    simpl. constructor; [|apply IH; assumption].
    intros Hin. apply Hnotin. rewrite list_elem_of_In in Hin |- *.
    apply List.in_map_iff in Hin.
    destruct Hin as (x & Hx & Hx'). apply List.filter_In in Hx'.
    apply List.in_map_iff. exists x. split; [exact Hx | apply Hx'].
  - apply List.Forall_forall. intros x Hx. apply List.filter_In in Hx.
    rewrite List.Forall_forall in Hf. apply Hf. apply Hx.
Qed.

Lemma serial_snoc {R} (rid : R -> Z) (rows : list R) (seq : Z) (r : R) :
  rid r = seq -> serial rid rows seq -> serial rid (rows ++ [r]) (seq + 1).
Proof.
  unfold serial. intros Hr [Hn Hf]. split.
  - rewrite map_app. simpl. induction rows as [|x rows IH]; simpl.
    + constructor; [intros Hin; inversion Hin|constructor].
    + inversion Hn as [|? ? Hnotin Hn']; subst. inversion Hf; subst.
      constructor; [|apply IH; assumption].
      intros Hin. rewrite list_elem_of_In in Hin. apply in_app_or in Hin.
      destruct Hin as [Hin|[Hin|[]]].
      * apply Hnotin. rewrite list_elem_of_In. exact Hin.
      * lia.
  - apply Forall_app. split.
    + eapply List.Forall_impl; [|exact Hf]. simpl. intros a Ha. lia.
    + constructor; [lia|constructor].
Qed.

Lemma catalog_ok_ok (s : Database) :
  catalog_ok s <-> ok (store (world s)) (tables s).
Proof. reflexivity. Qed.

(** A statement keeps what each of its runs keeps. *)
Lemma statement_keeps {A} (P : Db -> Prop) (run : option (Db -> A * Db))
    (w : World) :
  P (store w) ->
  (forall f d, run = Some f -> P d -> P (snd (f d))) ->
  P (store (snd (statement run w))).
Proof.
  intros H0 Hrun. unfold statement.
  destruct run as [f|]; [|exact H0].
  destruct (head (faults w)) as [[|]|]; [exact H0| |];
    (pose proof (Hrun f (store w) eq_refl H0) as H;
     destruct (f (store w)); exact H).
Qed.

Lemma task_statement_keeps {A} (P : Db -> Tables -> Prop)
    (run : option (Db -> Tables -> A * Db * Tables)) (s : Database) :
  P (store (world s)) (tables s) ->
  (forall f d tb, run = Some f -> P d tb -> P (snd (fst (f d tb))) (snd (f d tb))) ->
  P (store (world (snd (Task.statement run s)))) (tables (snd (Task.statement run s))).
Proof.
  intros H0 Hrun. unfold Task.statement.
  destruct run as [f|]; [|exact H0].
  destruct (head (faults (world s))) as [[|]|]; [exact H0| |];
    (pose proof (Hrun f (store (world s)) (tables s) eq_refl H0) as H;
     destruct (f (store (world s)) (tables s)) as [[a d] tb]; exact H).
Qed.

Lemma then_ret_world {A B} (c : Async A) (g : A -> B) (w : World) :
  snd (bind c (fun x => ret (g x)) w) = snd (c w).
Proof. unfold bind, ret. destruct (c w) as [[a|] w']; reflexivity. Qed.

Lemma task_then_ret {A B} (c : Task.t A) (g : A -> B) (s : Database) :
  snd (Task.bind c (fun x => Task.ret (g x)) s) = snd (c s).
Proof. unfold Task.bind, Task.ret. destruct (c s) as [[a|] s']; reflexivity. Qed.

Lemma lift_world {A} (c : Async A) (s : Database) :
  world (snd (Task.lift c s)) = snd (c (world s))
  /\ tables (snd (Task.lift c s)) = tables s.
Proof. unfold Task.lift. destruct (c (world s)); split; reflexivity. Qed.

(** An operation on [Db] that keeps the tables' part of the invariant keeps
    the invariant of the whole database. *)
Lemma lift_keeps {A} (c : Async A) (s : Database) :
  catalog_ok s ->
  (forall tb, ok (store (world s)) tb -> ok (store (snd (c (world s)))) tb) ->
  catalog_ok (snd (Task.lift c s)).
Proof.
  intros H Hc. apply catalog_ok_ok.
  destruct (lift_world c s) as [-> ->]. apply Hc. exact H.
Qed.

Lemma ok_intro (d : Db) (tb : Tables) :
  serial StudentAcademics.id (studentAcademics d) (studentAcademics_id_seq d) ->
  serial Attendance.id (attendance d) (attendance_id_seq d) ->
  serial User.id (users d) (users_id_seq tb) ->
  serial ExamResult.id (examResults d) (examResults_id_seq tb) ->
  serial ClassLevel.id (classLevels tb) (classLevels_id_seq tb) ->
  serial Subject.id (subjects tb) (subjects_id_seq tb) ->
  ok d tb.
Proof.
  intros H1 H2 H3 H4 H5 H6.
  exact (conj (conj H1 H2) (conj H3 (conj H4 (conj H5 H6)))).
Qed.

Lemma ok_elim (d : Db) (tb : Tables) :
  ok d tb ->
  serial StudentAcademics.id (studentAcademics d) (studentAcademics_id_seq d)
  /\ serial Attendance.id (attendance d) (attendance_id_seq d)
  /\ serial User.id (users d) (users_id_seq tb)
  /\ serial ExamResult.id (examResults d) (examResults_id_seq tb)
  /\ serial ClassLevel.id (classLevels tb) (classLevels_id_seq tb)
  /\ serial Subject.id (subjects tb) (subjects_id_seq tb).
Proof. intros ((? & ?) & ? & ? & ? & ?). auto 10. Qed.

Ltac ok_split H :=
  apply ok_elim in H; destruct H as (Hsa & Hat & Hus & Hex & Hcl & Hsb);
  apply ok_intro; cbn; try assumption.

Lemma promoteStudent_keeps (n : number) (c y : Z) (w : World) (tb : Tables) :
  ok (store w) tb -> ok (store (snd (promoteStudent n c y w))) tb.
Proof.
  intros H. unfold promoteStudent, bind.
  pose proof (statement_keeps (fun d => ok d tb)
                (update_users (promotion_patch c y) n) w H) as H1.
  destruct (statement (update_users (promotion_patch c y) n) w) as [[a|] w1];
    cbn in H1 |- *.
  - apply (statement_keeps (fun d => ok d tb)).
    + apply H1. intros f d Hf Hd.
      destruct (update_users_inv _ _ f d Hf) as (z & _ & ->).
      ok_split Hd; apply serial_rewrite; auto.
    + intros f d Hf Hd. unfold insert_academics in Hf.
      destruct (sql_int n) as [z|]; [|discriminate].
      inversion Hf; subst f. ok_split Hd; apply serial_snoc; auto.
  - apply H1. intros f d Hf Hd.
    destruct (update_users_inv _ _ f d Hf) as (z & _ & ->).
    ok_split Hd; apply serial_rewrite; auto.
Qed.

Lemma updateUser_keeps (n : number) (data : UserPatch) (w : World) (tb : Tables) :
  ok (store w) tb -> ok (store (snd (updateUser n data w))) tb.
Proof.
  intros H. unfold updateUser. rewrite then_ret_world.
  apply (statement_keeps (fun d => ok d tb)); [exact H|].
  intros f d Hf Hd. destruct (update_users_inv _ _ f d Hf) as (z & _ & ->).
  ok_split Hd; apply serial_rewrite; auto.
Qed.

Lemma deleteUser_keeps (n : number) (w : World) (tb : Tables) :
  ok (store w) tb -> ok (store (snd (deleteUser n w))) tb.
Proof.
  intros H. unfold deleteUser.
  apply (statement_keeps (fun d => ok d tb)); [exact H|].
  intros f d Hf Hd. destruct (sql_int n) as [z|]; [|discriminate].
  inversion Hf; subst f. ok_split Hd; apply serial_filter; auto.
Qed.

Lemma createAttendance_keeps (v : InsertAttendance) (w : World) (tb : Tables) :
  ok (store w) tb -> ok (store (snd (createAttendance v w))) tb.
Proof.
  intros H. unfold createAttendance. rewrite then_ret_world.
  apply (statement_keeps (fun d => ok d tb)); [exact H|].
  intros f d Hf Hd. destruct (sql_timestamp (ins_date v)) as [t|]; [|discriminate].
  inversion Hf; subst f. ok_split Hd; apply serial_snoc; auto.
Qed.

Lemma updateStudentAcademics_keeps (n : number) (data : AcademicsPatch.t)
    (w : World) (tb : Tables) :
  ok (store w) tb -> ok (store (snd (updateStudentAcademics n data w))) tb.
Proof.
  intros H. unfold updateStudentAcademics. rewrite then_ret_world.
  apply (statement_keeps (fun d => ok d tb)); [exact H|].
  intros f d Hf Hd. destruct (sql_int n) as [z|]; [|discriminate].
  destruct (AcademicsPatch.no_values data); [discriminate|].
  inversion Hf; subst f. ok_split Hd; apply serial_rewrite; auto.
Qed.

Lemma updateAttendance_keeps (n : number) (data : AttendancePatch.t)
    (w : World) (tb : Tables) :
  ok (store w) tb -> ok (store (snd (updateAttendance n data w))) tb.
Proof.
  intros H. unfold updateAttendance. rewrite then_ret_world.
  apply (statement_keeps (fun d => ok d tb)); [exact H|].
  intros f d Hf Hd. destruct (sql_int n) as [z|]; [|discriminate].
  destruct (bound_date data) as [dt|]; [|discriminate].
  destruct (AttendancePatch.no_values data); [discriminate|].
  inversion Hf; subst f. ok_split Hd; apply serial_rewrite; auto.
Qed.

Lemma after_keeps (op : Write) (s : Database) :
  catalog_ok s -> catalog_ok (after op s).
Proof.
  intros H. destruct op; cbn [after].
  - unfold createUser. rewrite task_then_ret. apply catalog_ok_ok.
    apply (task_statement_keeps ok); [exact H|].
    intros f d tb Hf Hd. inversion Hf; subst f.
    ok_split Hd; apply serial_snoc; auto.
  - apply lift_keeps; [exact H|]. intros tb. apply updateUser_keeps.
  - apply lift_keeps; [exact H|]. intros tb. apply deleteUser_keeps.
  - apply lift_keeps; [exact H|]. intros tb. apply promoteStudent_keeps.
  - apply lift_keeps; [exact H|]. intros tb. apply updateStudentAcademics_keeps.
  - apply lift_keeps; [exact H|]. intros tb. apply createAttendance_keeps.
  - apply lift_keeps; [exact H|]. intros tb. apply updateAttendance_keeps.
  - unfold createExamResult. rewrite task_then_ret. apply catalog_ok_ok.
    apply (task_statement_keeps ok); [exact H|].
    intros f d tb Hf Hd.
    destruct (sql_timestamp (new_examDate result)) as [t|]; [|discriminate].
    inversion Hf; subst f. ok_split Hd; apply serial_snoc; auto.
  - unfold createClassLevel. rewrite task_then_ret. apply catalog_ok_ok.
    apply (task_statement_keeps ok); [exact H|].
    intros f d tb Hf Hd. inversion Hf; subst f.
    ok_split Hd; apply serial_snoc; auto.
  - unfold createSubject. rewrite task_then_ret. apply catalog_ok_ok.
    apply (task_statement_keeps ok); [exact H|].
    intros f d tb Hf Hd. inversion Hf; subst f.
    ok_split Hd; apply serial_snoc; auto.
  - unfold deleteSubject. apply catalog_ok_ok.
    apply (task_statement_keeps ok); [exact H|].
    intros f d tb Hf Hd. destruct (sql_int id) as [z|]; [|discriminate].
    inversion Hf; subst f. ok_split Hd; apply serial_filter; auto.
Qed.

(** X11: the serial identifiers stay sound. If in every table the ids are
    distinct and below the table's sequence, they still are after any
    sequence of writes of the gateway, whichever of them fail: inserts draw
    a fresh id, and updates and deletes never touch one. *)
Theorem serial_ids_preserved (ops : list Write) (s : Database) :
  catalog_ok s -> catalog_ok (after_all ops s).
Proof.
  revert s. induction ops as [|op ops IH]; intros s H; [exact H|].
  cbn. apply IH. apply after_keeps. exact H.
Qed.

End SerialFacts.

(** ** Who is let in *)

Module AccessFacts.
Import Schema Storage Routes Gateway Catalog Api Spec StorageFacts RoutesFacts
  Invariant.

Section Handlers.

Variable parseInt : string -> number.
Variable newDate : string -> Date.
Variable isEmail : string -> bool.

(** X12: a caller without a session is answered 401 Unauthorized, and
    nothing is read or written, by every endpoint except the listings of
    class levels and subjects, whatever the path, the query and the body. *)
Theorem anonymous_is_unauthorized (req : Request) (role : string) (s : Database) :
  user req = None ->
  let unauthorized := {| status := 401; payload := Text "Unauthorized" |} in
  let unauthorized' := {| code := 401; content := Plain "Unauthorized" |} in
  patch_user parseInt isEmail req (world s) = (Resolved unauthorized, world s)
  /\ delete_user parseInt req (world s) = (Resolved unauthorized, world s)
  /\ get_attendance parseInt newDate req (world s) = (Resolved unauthorized, world s)
  /\ post_attendance req (world s) = (Resolved unauthorized, world s)
  /\ (exists handler, post_promote parseInt req = Some handler
        /\ handler (world s) = (Resolved unauthorized, world s))
  /\ get_users req s = (Resolved unauthorized', s)
  /\ get_users_by_role req role s = (Resolved unauthorized', s)
  /\ get_student_academics parseInt req s = (Resolved unauthorized', s)
  /\ get_student_results parseInt req s = (Resolved unauthorized', s)
  /\ (exists handler, post_results newDate req = Some handler
        /\ handler s = (Resolved unauthorized', s))
  /\ post_subjects req s = (Resolved unauthorized', s).
Proof.
  intros Hu. cbn zeta.
  unfold patch_user, delete_user, get_attendance, post_attendance, post_promote,
    get_users, get_users_by_role, get_student_academics, get_student_results,
    post_results, post_subjects, admits_admin, admits_teacher,
    Routes.requireAdmin, Routes.requireTeacher, requireAdmin, requireTeacher.
  rewrite Hu.
  do 4 (split; [reflexivity|]).
  split; [eexists; split; reflexivity|].
  do 4 (split; [reflexivity|]).
  split; [eexists; split; reflexivity | reflexivity].
Qed.

(** X13: with a session but without the role, the answer is 403 Forbidden
    and nothing is read or written, whatever the path and the body: for
    whoever is not an admin on deleting a user, promoting, listing users and
    creating a subject, and for a student on recording attendance and exam
    results. *)
Theorem wrong_role_is_forbidden (req : Request) (caller : User.t) (role : string)
    (s : Database) :
  user req = Some caller -> User.role caller <> admin ->
  let forbidden := {| status := 403; payload := Text "Forbidden" |} in
  let forbidden' := {| code := 403; content := Plain "Forbidden" |} in
  (delete_user parseInt req (world s) = (Resolved forbidden, world s)
   /\ (exists handler, post_promote parseInt req = Some handler
         /\ handler (world s) = (Resolved forbidden, world s))
   /\ get_users req s = (Resolved forbidden', s)
   /\ get_users_by_role req role s = (Resolved forbidden', s)
   /\ post_subjects req s = (Resolved forbidden', s))
  /\ (User.role caller = student ->
      post_attendance req (world s) = (Resolved forbidden, world s)
      /\ exists handler, post_results newDate req = Some handler
           /\ handler s = (Resolved forbidden', s)).
Proof.
  intros Hu Hr. cbn zeta.
  assert (Ha : is_admin caller = false)
    by (unfold is_admin; destruct (User.role caller); [congruence| |]; reflexivity).
  unfold delete_user, post_attendance, post_promote, get_users,
    get_users_by_role, post_results, post_subjects, admits_admin,
    admits_teacher, Routes.requireAdmin, Routes.requireTeacher, requireAdmin,
    requireTeacher.
  rewrite Hu, Ha. cbn [negb]. split.
  - split; [reflexivity|].
    split; [eexists; split; reflexivity|].
    repeat split.
  - intros Hs. rewrite Hs. cbn. split; [reflexivity|].
    eexists. split; reflexivity.
Qed.

End Handlers.

Lemma anonymous_is_unauthorized_witness :
  (exists handler,
      post_promote Sample.parseInt (Campus.anonymous "3") = Some handler
      /\ handler (world Campus.calm)
         = (Resolved {| status := 401; payload := Text "Unauthorized" |},
            world Campus.calm))
  /\ get_student_results Sample.parseInt (Campus.anonymous "3") Campus.calm
     = (Resolved {| code := 401; content := Plain "Unauthorized" |}, Campus.calm).
Proof.
  destruct (anonymous_is_unauthorized Sample.parseInt Campus.newDate Sample.isEmail
              (Campus.anonymous "3") "teacher" Campus.calm eq_refl)
    as (_ & _ & _ & _ & Hp & _ & _ & _ & Hr & _).
  split; [exact Hp | exact Hr].
Defined.

Lemma tom_is_no_admin : User.role Sample.tom <> admin.
Proof. discriminate. Defined.

Lemma wrong_role_is_forbidden_witness :
  (exists handler,
      post_promote Sample.parseInt (Sample.request (Some Sample.tom) "3" ∅ ∅)
      = Some handler
      /\ handler (world Campus.calm)
         = (Resolved {| status := 403; payload := Text "Forbidden" |},
            world Campus.calm))
  /\ (exists handler,
         post_results Campus.newDate (Sample.request (Some Sample.sam) "" ∅ ∅)
         = Some handler
         /\ handler Campus.calm
            = (Resolved {| code := 403; content := Plain "Forbidden" |},
               Campus.calm)).
Proof.
  split.
  - exact (proj1 (proj2 (proj1
      (wrong_role_is_forbidden Sample.parseInt Campus.newDate
         (Sample.request (Some Sample.tom) "3" ∅ ∅) Sample.tom "teacher"
         Campus.calm eq_refl tom_is_no_admin)))).
  - exact (proj2 (proj2
      (wrong_role_is_forbidden Sample.parseInt Campus.newDate
         (Sample.request (Some Sample.sam) "" ∅ ∅)
         Sample.sam "teacher" Campus.calm eq_refl sam_is_no_admin) eq_refl)).
Defined.

End AccessFacts.

(** ** Listings and lookups *)

Module ListingFacts.
Import Schema Storage Routes Gateway Catalog Api Spec StorageFacts RoutesFacts
  Invariant.

Lemma task_statement_runs {A} (f : Db -> Tables -> A * Db * Tables) (s : Database) :
  next_runs (world s) ->
  Task.statement (Some f) s
  = (Resolved (fst (fst (f (store (world s)) (tables s)))),
     {| world :=
          {| store := snd (fst (f (store (world s)) (tables s)));
             faults := tail (faults (world s)) |};
        tables := snd (f (store (world s)) (tables s)) |}).
Proof.
  intros H. unfold next_runs in H. unfold Task.statement.
  destruct (head (faults (world s))) as [[|]|];
    [exfalso; apply H; reflexivity | |];
    destruct (f (store (world s)) (tables s)) as [[a d] tb]; reflexivity.
Qed.

Lemma task_statement_fails {A} (run : option (Db -> Tables -> A * Db * Tables))
    (s : Database) :
  head (faults (world s)) = Some true ->
  Task.statement run s = (Rejected, read_done s).
Proof.
  intros H. unfold Task.statement. rewrite H. destruct run; reflexivity.
Qed.

Lemma lift_run {A} (c : Async A) (s : Database) (o : Outcome A) (w' : World) :
  c (world s) = (o, w') ->
  Task.lift c s = (o, {| world := w'; tables := tables s |}).
Proof. intros H. unfold Task.lift. rewrite H. reflexivity. Qed.

Lemma Role_eqb_eq (a b : Role) : Role_eqb a b = true <-> a = b.
Proof. destruct a, b; cbn; split; congruence. Qed.

Lemma Role_of_string_name (r : Role) : Role_of_string (Role_name r) = Some r.
Proof. destruct r; reflexivity. Qed.

Lemma Role_of_string_other (s : string) :
  s <> "admin" -> s <> "teacher" -> s <> "student" -> Role_of_string s = None.
Proof.
  intros Ha Ht Hs. unfold Role_of_string.
  rewrite !bool_decide_eq_false_2 by assumption. reflexivity.
Qed.

(** Among rows of distinct ids, the rows of one id are that one row. *)
Lemma filter_unique {R} (rid : R -> Z) (rows : list R) (r : R) :
  NoDup (map rid rows) -> In r rows ->
  List.filter (fun x => rid x =? rid r) rows = [r].
Proof.
  induction rows as [|x rows IH]; intros Hn Hin; [destruct Hin|].
  cbn in Hn. inversion Hn as [|? ? Hnotin Hn']; subst. cbn.
  destruct Hin as [->|Hin].
  - rewrite Z.eqb_refl. f_equal.
    assert (H : forall y, In y rows -> (rid y =? rid r) = false).
    { intros y Hy. apply Z.eqb_neq. intros E. apply Hnotin.
      rewrite list_elem_of_In, <- E. apply List.in_map. exact Hy. }
    clear IH Hn Hn' Hnotin. induction rows as [|y rows IH]; [reflexivity|].
    cbn. rewrite (H y) by (left; reflexivity).
    apply IH. intros y' Hy'. apply H. right. exact Hy'.
  - destruct (Z.eqb_spec (rid x) (rid r)) as [E|E].
    + exfalso. apply Hnotin. rewrite list_elem_of_In, E.
      apply List.in_map. exact Hin.
    + apply IH; assumption.
Qed.

Lemma filter_none {R} (rid : R -> Z) (z : Z) (rows : list R) :
  (forall r, In r rows -> rid r <> z) ->
  List.filter (fun x => rid x =? z) rows = [].
Proof.
  induction rows as [|x rows IH]; intros H; [reflexivity|]. cbn.
  destruct (Z.eqb_spec (rid x) z) as [E|E].
  - exfalso. apply (H x); [left; reflexivity | exact E].
  - apply IH. intros r Hr. apply H. right. exact Hr.
Qed.

Section Handlers.

Variable parseInt : string -> number.

(** X14: for an admin, GET /api/users/:role answers 400 "Invalid role",
    sending no query, when the path names none of the three roles, and
    otherwise answers 200 with exactly the stored users of that role. *)
Theorem users_listed_by_role (req : Request) (caller : User.t)
    (params_role : string) (s : Database) :
  user req = Some caller -> User.role caller = admin ->
  (params_role <> "admin" -> params_role <> "teacher" ->
   params_role <> "student" ->
   get_users_by_role req params_role s
   = (Resolved {| code := 400; content := Msg "Invalid role" |}, s))
  /\ (forall role, params_role = Role_name role -> next_runs (world s) ->
      exists rows,
        get_users_by_role req params_role s
        = (Resolved {| code := 200; content := Users rows |}, read_done s)
        /\ forall u, In u rows
             <-> In u (users (store (world s))) /\ User.role u = role).
Proof.
  intros Hu Hr. unfold get_users_by_role, requireAdmin, is_admin.
  rewrite Hu, Hr. cbn [Role_eqb negb]. split.
  - intros Ha Ht Hs. rewrite Role_of_string_other by assumption. reflexivity.
  - intros role -> Hf. rewrite Role_of_string_name. eexists. split.
    + unfold Task.bind, getUsersByRole.
      rewrite (lift_run _ s _ _ (statement_runs _ (world s) Hf)). reflexivity.
    + intros u. cbn. rewrite filter_In, Role_eqb_eq. reflexivity.
Qed.

(** X15: GET /api/students/:id/academics and /results answer any caller
    with a session, whatever the caller's role and id, with exactly the
    stored records of the student named in the path. *)
Theorem any_session_reads_student_records (req : Request) (caller : User.t)
    (z : Z) (s : Database) :
  user req = Some caller -> parseInt (params_id req) = Int z ->
  next_runs (world s) ->
  (exists rows,
      get_student_academics parseInt req s
      = (Resolved {| code := 200; content := Academics rows |}, read_done s)
      /\ forall r, In r rows
           <-> In r (studentAcademics (store (world s)))
               /\ StudentAcademics.studentId r = z)
  /\ (exists rows,
         get_student_results parseInt req s
         = (Resolved {| code := 200; content := Results rows |}, read_done s)
         /\ forall e, In e rows
              <-> In e (examResults (store (world s)))
                  /\ ExamResult.studentId e = z).
Proof.
  intros Hu Hid Hf. unfold get_student_academics, get_student_results.
  rewrite Hu, Hid. split; eexists; split.
  - unfold Task.bind, getStudentAcademics, Gateway.select. cbn [sql_int].
    rewrite (lift_run _ s _ _ (statement_runs _ (world s) Hf)). reflexivity.
  - intros r. cbn. rewrite filter_In, Z.eqb_eq. reflexivity.
  - unfold Task.bind, getExamResults, Gateway.select. cbn [sql_int].
    rewrite (lift_run _ s _ _ (statement_runs _ (world s) Hf)). reflexivity.
  - intros e. cbn. rewrite filter_In, Z.eqb_eq. reflexivity.
Qed.

(** X16: GET /api/class-levels/:id asks for no session. It answers 404
    "Class level not found" when no class level has the id, and 200 with
    the class level when one has (ids being distinct). *)
Theorem class_level_found_or_404 (req : Request) (z : Z) (s : Database) :
  parseInt (params_id req) = Int z -> next_runs (world s) ->
  ((forall c, In c (classLevels (tables s)) -> ClassLevel.id c <> z) ->
   get_class_level parseInt req s
   = (Resolved {| code := 404; content := Msg "Class level not found" |},
      read_done s))
  /\ (forall c, In c (classLevels (tables s)) -> ClassLevel.id c = z ->
      NoDup (map ClassLevel.id (classLevels (tables s))) ->
      get_class_level parseInt req s
      = (Resolved {| code := 200; content := OneClassLevel c |}, read_done s)).
Proof.
  intros Hid Hf. unfold get_class_level, getClassLevelById, Catalog.select.
  rewrite Hid. cbn [sql_int]. unfold Task.bind.
  rewrite task_statement_runs by exact Hf. cbn [fst snd Task.ret]. split.
  - intros Habs. rewrite (filter_none ClassLevel.id z _ Habs). reflexivity.
  - intros c Hin <- Hn. rewrite (filter_unique ClassLevel.id _ c Hn Hin).
    reflexivity.
Qed.

(** X17: the subject listings ask for no session either. By class they
    give exactly the subjects of that class; by teacher, exactly the
    subjects whose teacher is set and is that one. *)
Theorem subjects_listed (req : Request) (path : string) (z : Z) (s : Database) :
  parseInt path = Int z -> next_runs (world s) ->
  (exists rows,
      get_subjects_by_class parseInt req path s
      = (Resolved {| code := 200; content := Subjects rows |}, read_done s)
      /\ forall sb, In sb rows
           <-> In sb (subjects (tables s)) /\ Subject.classLevelId sb = z)
  /\ (exists rows,
         get_subjects_by_teacher parseInt req path s
         = (Resolved {| code := 200; content := Subjects rows |}, read_done s)
         /\ forall sb, In sb rows
              <-> In sb (subjects (tables s)) /\ Subject.teacherId sb = Some z).
Proof.
  intros Hid Hf.
  unfold get_subjects_by_class, get_subjects_by_teacher, getSubjectsByClass,
    getSubjectsByTeacher, Catalog.select.
  rewrite Hid. cbn [sql_int]. unfold Task.bind.
  rewrite !task_statement_runs by exact Hf. cbn [fst snd].
  split; eexists; (split; [reflexivity|]).
  - intros sb. rewrite filter_In, Z.eqb_eq. reflexivity.
  - intros sb. rewrite filter_In. destruct (Subject.teacherId sb) as [t|].
    + rewrite Z.eqb_eq. split; intros [H1 H2]; split; congruence.
    + split; intros [H1 H2]; discriminate.
Qed.

End Handlers.

End ListingFacts.

(** ** Creating and removing catalog entries, results and users *)

Module CatalogFacts.
Import Schema Storage Routes Gateway Catalog Api Spec StorageFacts RoutesFacts
  Invariant UsersFacts ListingFacts.

Lemma insertSubjectSchema_fields (input : gmap string jsval)
    (data : Subject.values) :
  insertSubjectSchema input = Some data ->
  input !! "name" = Some (VStr (Subject.new_name data))
  /\ input !! "classLevelId" = Some (VNum (Subject.new_classLevelId data)).
Proof.
  unfold insertSubjectSchema, z_required. intros H.
  destruct (input !! "name") as [[| | |name| |]|]; try discriminate H.
  cbn in H.
  destruct (z_optional (z_nullable z_string) (input !! "description"));
    [|discriminate H].
  cbn in H.
  destruct (z_optional (z_nullable z_number) (input !! "teacherId"));
    [|discriminate H].
  cbn in H.
  destruct (input !! "classLevelId") as [[| |c| | |]|]; try discriminate H.
  cbn in H. inversion H; subst; cbn. split; reflexivity.
Qed.

(** The serial ids below the sequence leave the sequence's value free. *)
Lemma serial_fresh {R} (rid : R -> Z) (rows : list R) (seq : Z) :
  serial rid rows seq -> List.filter (fun x => rid x =? seq) rows = [].
Proof.
  intros [_ Hf]. apply filter_none. intros r Hr.
  rewrite List.Forall_forall in Hf. specialize (Hf r Hr). lia.
Qed.

Section Handlers.

Variable parseInt : string -> number.
Variable newDate : string -> Date.

(** X18: POST /api/subjects by an admin. A body that passes the schema is
    answered 201 with the new subject, which takes the next id of the
    sequence and the name and class of the body, and is appended to
    [subjects]; the listing of its class then ends with it. A body without
    [name] or without [classLevelId] is answered 400 and nothing is stored. *)
Theorem subject_created_and_listed (req req' : Request) (caller : User.t)
    (s : Database) :
  user req = Some caller -> User.role caller = admin ->
  (forall (data : Subject.values) (path : string),
      insertSubjectSchema (body req) = Some data -> next_runs (world s) ->
      exists sb,
        fst (post_subjects req s)
        = Resolved {| code := 201; content := OneSubject (Some sb) |}
        /\ subjects (tables (snd (post_subjects req s)))
           = subjects (tables s) ++ [sb]
        /\ Subject.id sb = subjects_id_seq (tables s)
        /\ body req !! "name" = Some (VStr (Subject.name sb))
        /\ body req !! "classLevelId" = Some (VNum (Subject.classLevelId sb))
        /\ (parseInt path = Int (Subject.classLevelId sb) ->
            next_runs (world (snd (post_subjects req s))) ->
            fst (get_subjects_by_class parseInt req' path (snd (post_subjects req s)))
            = Resolved
                {| code := 200;
                   content := Subjects
                     (List.filter
                        (fun x => Subject.classLevelId x =? Subject.classLevelId sb)
                        (subjects (tables s)) ++ [sb]) |}))
  /\ (body req !! "name" = None \/ body req !! "classLevelId" = None ->
      post_subjects req s = (Resolved {| code := 400; content := Issues |}, s)).
Proof.
  intros Hu Hr. unfold post_subjects, requireAdmin, is_admin.
  rewrite Hu, Hr. cbn [Role_eqb negb]. split.
  - intros data path Hd Hf. rewrite Hd.
    destruct (insertSubjectSchema_fields _ _ Hd) as [Hname Hclass].
    unfold createSubject, Task.bind.
    rewrite task_statement_runs by exact Hf. cbn [fst snd Task.ret head reply].
    eexists. split; [reflexivity|]. cbn [tables subjects].
    split; [reflexivity|]. split; [reflexivity|].
    split; [exact Hname|]. split; [exact Hclass|].
    intros Hp Hf'. cbn [Subject.classLevelId] in Hp.
    unfold get_subjects_by_class, getSubjectsByClass, Catalog.select.
    rewrite Hp. cbn [sql_int]. unfold Task.bind.
    rewrite task_statement_runs by exact Hf'. cbn [fst snd tables subjects reply Task.ret].
    rewrite List.filter_app. cbn. rewrite Z.eqb_refl. reflexivity.
  - intros Hbad.
    destruct (insertSubjectSchema (body req)) as [data|] eqn:Hd; [|reflexivity].
    destruct (insertSubjectSchema_fields _ _ Hd) as [Hname Hclass].
    destruct Hbad; congruence.
Qed.

Lemma get_student_results_run (req : Request) (reader : User.t) (z : Z)
    (s : Database) :
  user req = Some reader -> parseInt (params_id req) = Int z ->
  next_runs (world s) ->
  get_student_results parseInt req s
  = (Resolved
       {| code := 200;
          content := Results
            (List.filter (fun e => ExamResult.studentId e =? z)
               (examResults (store (world s)))) |},
     read_done s).
Proof.
  intros Hu Hid Hf. unfold get_student_results. rewrite Hu, Hid.
  unfold Task.bind, getExamResults, Gateway.select. cbn [sql_int].
  rewrite (lift_run _ s _ _ (statement_runs _ (world s) Hf)). reflexivity.
Qed.

(** X19: POST /api/results by a teacher or an admin, with a body of the
    declared types. When the insert succeeds the answer is 201 with the new
    record, which is appended to [exam_results], and the student's results
    as served to any session then end with it; when the statement fails the
    answer is 500 "Failed to create exam result" and nothing is stored. *)
Theorem result_recorded_and_listed (req req' : Request) (caller reader : User.t)
    (result : NewExamResult) (handler : Task.t Reply) (t : Z) (s : Database) :
  user req = Some caller ->
  User.role caller = teacher \/ User.role caller = admin ->
  post_results newDate req = Some handler ->
  result_args newDate (body req) = Some result ->
  new_examDate result = Time t ->
  (next_runs (world s) ->
   exists record,
     fst (handler s) = Resolved {| code := 201; content := OneResult (Some record) |}
     /\ examResults (store (world (snd (handler s))))
        = examResults (store (world s)) ++ [record]
     /\ ExamResult.id record = examResults_id_seq (tables s)
     /\ ExamResult.studentId record = new_studentId result
     /\ ExamResult.marks record = new_marks result
     /\ ExamResult.grade record = new_grade result
     /\ (user req' = Some reader ->
         parseInt (params_id req') = Int (new_studentId result) ->
         next_runs (world (snd (handler s))) ->
         fst (get_student_results parseInt req' (snd (handler s)))
         = Resolved
             {| code := 200;
                content := Results
                  (List.filter
                     (fun e => ExamResult.studentId e =? new_studentId result)
                     (examResults (store (world s))) ++ [record]) |}))
  /\ (head (faults (world s)) = Some true ->
      handler s
      = (Resolved {| code := 500; content := Msg "Failed to create exam result" |},
         read_done s)).
Proof.
  intros Hu Hr Hpost Hargs Hdate.
  assert (Hadm : admits_teacher req = true)
    by (unfold admits_teacher, is_admin; rewrite Hu;
        destruct Hr as [-> | ->]; reflexivity).
  unfold post_results in Hpost.
  rewrite Hadm, Hargs in Hpost. cbn in Hpost. inversion Hpost; subst handler.
  clear Hpost. unfold requireTeacher, is_admin. rewrite Hu.
  assert (Hg : negb (Role_eqb (User.role caller) teacher)
               && negb (Role_eqb (User.role caller) admin) = false)
    by (destruct Hr as [-> | ->]; reflexivity).
  rewrite Hg. unfold Task.try_catch, createExamResult, Task.bind.
  rewrite Hdate. cbn [sql_timestamp]. split.
  - intros Hf. rewrite task_statement_runs by exact Hf.
    cbn [fst snd Task.ret head reply].
    eexists. split; [reflexivity|].
    split; [reflexivity|]. do 4 (split; [reflexivity|]).
    intros Hu' Hid Hf'.
    rewrite (get_student_results_run req' reader _ _ Hu' Hid Hf').
    cbn. rewrite List.filter_app. cbn. rewrite Z.eqb_refl. reflexivity.
  - intros Hf. rewrite task_statement_fails by exact Hf. reflexivity.
Qed.

(** X21: a class level that [createClassLevel] has stored is the one that
    GET /api/class-levels/:id serves under the id it was given, provided
    the ids were sound before. *)
Theorem created_class_level_is_served (data : ClassLevel.values) (req : Request)
    (s : Database) :
  catalog_ok s -> next_runs (world s) ->
  exists c,
    fst (createClassLevel data s) = Resolved (Some c)
    /\ ClassLevel.name c = ClassLevel.new_name data
    /\ ClassLevel.description c = ClassLevel.new_description data
    /\ ClassLevel.academicYear c = ClassLevel.new_academicYear data
    /\ (parseInt (params_id req) = Int (ClassLevel.id c) ->
        next_runs (world (snd (createClassLevel data s))) ->
        fst (get_class_level parseInt req (snd (createClassLevel data s)))
        = Resolved {| code := 200; content := OneClassLevel c |}).
Proof.
  intros Hok Hf. pose proof Hok as (_ & _ & _ & Hcl & _).
  unfold createClassLevel, Task.bind.
  rewrite task_statement_runs by exact Hf. cbn [fst snd Task.ret head].
  eexists. split; [reflexivity|]. do 3 (split; [reflexivity|]).
  intros Hid Hf'. cbn [ClassLevel.id] in Hid.
  unfold get_class_level, getClassLevelById, Catalog.select. rewrite Hid.
  cbn [sql_int]. unfold Task.bind.
  rewrite task_statement_runs by exact Hf'. cbn [fst snd tables classLevels Task.ret].
  rewrite List.filter_app, (serial_fresh _ _ _ Hcl). cbn.
  rewrite Z.eqb_refl. reflexivity.
Qed.

End Handlers.


(** X22: [deleteSubject], with no failure due, resolves and removes exactly
    the subjects of that id; class levels and the tables of users,
    attendance and results are as before, so attendance recorded for the
    subject stays. *)
Theorem deleteSubject_only_subjects (z : Z) (s : Database) :
  next_runs (world s) ->
  fst (deleteSubject (Int z) s) = Resolved tt
  /\ (forall sb, In sb (subjects (tables (snd (deleteSubject (Int z) s))))
        <-> In sb (subjects (tables s)) /\ Subject.id sb <> z)
  /\ classLevels (tables (snd (deleteSubject (Int z) s))) = classLevels (tables s)
  /\ store (world (snd (deleteSubject (Int z) s))) = store (world s).
Proof.
  intros Hf. unfold deleteSubject. cbn [sql_int].
  rewrite task_statement_runs by exact Hf. cbn.
  split; [reflexivity|]. split; [|split; reflexivity].
  intros sb. rewrite filter_In, negb_true_iff, Z.eqb_neq. reflexivity.
Qed.



End CatalogFacts.

(** ** The properties above on the sample school *)

Module CampusFacts.
Import Schema Storage Routes Gateway Catalog Api Spec StorageFacts RoutesFacts
  Invariant UsersFacts SerialFacts ListingFacts CatalogFacts.

Lemma campus_ok : catalog_ok Campus.calm.
Proof.
  apply catalog_ok_ok.
  apply ok_intro; cbn; split; apply (bool_decide_unpack _); vm_compute; exact I.
Qed.

Lemma campus_runs : next_runs (world Campus.calm).
Proof. discriminate. Defined.

Lemma serial_ids_preserved_witness :
  catalog_ok
    (after_all
       [PromoteStudent (Int 3) 6 2025; CreateUser Campus.kim; DeleteUser (Int 1);
        CreateSubject Campus.physics; DeleteSubject (Int 8)]
       Campus.calm).
Proof.
  exact (serial_ids_preserved
           [PromoteStudent (Int 3) 6 2025; CreateUser Campus.kim; DeleteUser (Int 1);
            CreateSubject Campus.physics; DeleteSubject (Int 8)]
           Campus.calm campus_ok).
Defined.

Lemma users_listed_by_role_witness :
  exists rows,
    get_users_by_role Campus.alice_asks "teacher" Campus.calm
    = (Resolved {| code := 200; content := Users rows |}, read_done Campus.calm)
    /\ forall u, In u rows
         <-> In u (users (store (world Campus.calm))) /\ User.role u = teacher.
Proof.
  exact (proj2 (users_listed_by_role Campus.alice_asks Sample.alice "teacher"
                  Campus.calm eq_refl eq_refl) teacher eq_refl campus_runs).
Defined.

Lemma any_session_reads_student_records_witness :
  exists rows,
    get_student_results Sample.parseInt Campus.tom_reads_sam Campus.calm
    = (Resolved {| code := 200; content := Results rows |}, read_done Campus.calm)
    /\ forall e, In e rows
         <-> In e (examResults (store (world Campus.calm)))
             /\ ExamResult.studentId e = 3.
Proof.
  exact (proj2 (any_session_reads_student_records Sample.parseInt
                  Campus.tom_reads_sam Sample.tom 3 Campus.calm
                  eq_refl eq_refl campus_runs)).
Defined.

Lemma no_class_9 (c : ClassLevel.t) :
  In c (classLevels (tables Campus.calm)) -> ClassLevel.id c <> 9.
Proof. cbn. intros [<-|[<-|[]]]; discriminate. Defined.

Lemma class_level_found_or_404_witness :
  get_class_level Sample.parseInt (Campus.anonymous "9") Campus.calm
  = (Resolved {| code := 404; content := Msg "Class level not found" |},
     read_done Campus.calm)
  /\ get_class_level Sample.parseInt (Campus.anonymous "6") Campus.calm
     = (Resolved {| code := 200; content := OneClassLevel Campus.grade6 |},
        read_done Campus.calm).
Proof.
  split.
  - exact (proj1 (class_level_found_or_404 Sample.parseInt (Campus.anonymous "9")
                    9 Campus.calm eq_refl campus_runs) no_class_9).
  - refine (proj2 (class_level_found_or_404 Sample.parseInt (Campus.anonymous "6")
                     6 Campus.calm eq_refl campus_runs) Campus.grade6 _ eq_refl _).
    + cbn. auto.
    + exact (proj1 (proj1 (proj2 (proj2 (proj2 (proj2 (ok_elim _ _ campus_ok))))))).
Defined.

Lemma subjects_listed_witness :
  exists rows,
    get_subjects_by_teacher Sample.parseInt (Campus.anonymous "") "2" Campus.calm
    = (Resolved {| code := 200; content := Subjects rows |}, read_done Campus.calm)
    /\ forall sb, In sb rows
         <-> In sb (subjects (tables Campus.calm)) /\ Subject.teacherId sb = Some 2.
Proof.
  exact (proj2 (subjects_listed Sample.parseInt (Campus.anonymous "") "2" 2
                  Campus.calm eq_refl campus_runs)).
Defined.

Lemma subject_created_and_listed_witness :
  exists sb,
    fst (post_subjects Campus.alice_adds_physics Campus.calm)
    = Resolved {| code := 201; content := OneSubject (Some sb) |}
    /\ Subject.id sb = 9
    /\ body Campus.alice_adds_physics !! "name" = Some (VStr (Subject.name sb)).
Proof.
  destruct (proj1 (subject_created_and_listed Sample.parseInt
                     Campus.alice_adds_physics (Campus.anonymous "")
                     Sample.alice Campus.calm eq_refl eq_refl)
              Campus.physics "6" eq_refl campus_runs)
    as (sb & H1 & _ & H3 & H4 & _).
  exists sb. auto.
Defined.

Lemma result_recorded_and_listed_witness :
  exists record,
    fst (Campus.results_handler Campus.tom_grades_sam Campus.calm)
    = Resolved {| code := 201; content := OneResult (Some record) |}
    /\ ExamResult.id record = 2
    /\ ExamResult.marks record = 91.
Proof.
  destruct (proj1 (result_recorded_and_listed Sample.parseInt Campus.newDate
                     Campus.tom_grades_sam Campus.tom_reads_sam Sample.tom
                     Sample.tom Campus.sam_second_term
                     (Campus.results_handler Campus.tom_grades_sam)
                     1704067200000 Campus.calm
                     eq_refl (or_introl eq_refl) eq_refl eq_refl eq_refl)
              campus_runs)
    as (record & H1 & _ & H3 & _ & H5 & _).
  exists record. auto.
Defined.


Lemma created_class_level_is_served_witness :
  exists c,
    fst (createClassLevel Campus.grade7 Campus.calm) = Resolved (Some c)
    /\ ClassLevel.name c = "Grade 7".
Proof.
  destruct (created_class_level_is_served Sample.parseInt Campus.grade7
              (Campus.anonymous "7") Campus.calm campus_ok campus_runs)
    as (c & H1 & H2 & _).
  exists c. auto.
Defined.

Lemma deleteSubject_only_subjects_witness :
  fst (deleteSubject (Int 8) Campus.calm) = Resolved tt
  /\ store (world (snd (deleteSubject (Int 8) Campus.calm)))
     = store (world Campus.calm).
Proof.
  destruct (deleteSubject_only_subjects 8 Campus.calm campus_runs)
    as (H1 & _ & _ & H4).
  split; assumption.
Defined.



End CampusFacts.
